(** * MergeGeometryBlocks: merging two geometry blocks by index

    A shallow embedding of [dask_geomodeling/geometry/merge.py].

    Python values that reach the block are embedded in one type [value];
    exceptions are an explicit [result]; calls that leave the module
    (shapely, pandas) are recorded in a trace, so that a statement can say
    that none was made. *)

From Stdlib Require Import QArith Lqa.
From stdpp Require Import gmap strings list sorting pretty.

Open Scope string_scope.
Open Scope list_scope.

(* stdpp's solvers clear hypotheses that may not exist *)
Set Warnings "-clear-no-such-hyp".

(** ** Exceptions and results *)

Inductive exn : Type :=
| TypeError (msg : string)
| KeyError (msg : string)
| IndexError (msg : string)
| ValueError (msg : string).

Inductive result (A : Type) : Type :=
| Ok (a : A)
| Raise (e : exn).
Arguments Ok {A} a.
Arguments Raise {A} e.

(** Sequencing: [x <- m ;; k] runs [m], then [k] on its value; the first
    exception ends the computation. *)
Definition result_bind {A B : Type} (m : result A) (f : A -> result B)
    : result B :=
  match m with
  | Ok a => f a
  | Raise e => Raise e
  end.

Notation "x <- m ;; k" := (result_bind m (fun x => k))
  (at level 100, m at next level, right associativity,
   format "'[v' x  <-  m  ;;  '/' k ']'").

(** ** Calls into the geometry and table engines *)

Inductive call : Type :=
| call_box
| call_intersection
| call_union
| call_is_empty
| call_bounds
| call_merge.

(** A computation that may call the engines: the calls made, in order, and
    how it ended. *)
Record traced (A : Type) : Type := Traced {
  calls : list call;
  outcome : result A
}.
Arguments Traced {A} calls outcome.
Arguments calls {A} t.
Arguments outcome {A} t.

(** Sequencing of traced computations: [x <~ m ;; k]; the calls of [m]
    come before those of [k]. *)
Definition traced_bind {A B : Type} (m : traced A) (f : A -> traced B)
    : traced B :=
  match outcome m with
  | Ok a => Traced (calls m ++ calls (f a)) (outcome (f a))
  | Raise e => Traced (calls m) (Raise e)
  end.

Notation "x <~ m ;; k" := (traced_bind m (fun x => k))
  (at level 100, m at next level, right associativity,
   format "'[v' x  <~  m  ;;  '/' k ']'").

(** A computation that ends with the value [a] and calls no engine. *)
Definition done {A : Type} (a : A) : traced A := Traced [] (Ok a).

(** A step that calls no engine. *)
Definition pure {A : Type} (r : result A) : traced A := Traced [] r.

(** A step that is one call [c] into an engine, ending as [r]. *)
Definition engine {A : Type} (c : call) (r : result A) : traced A :=
  Traced [c] r.

(** ** Upstream blocks and attribute tables *)

Module GeometryBlock.
(** Modelled from the spec: an upstream source ([GeometryBlock], whose
    class is not part of the sources) exposes a [columns] accessor that
    returns a set of attribute names; that is all the merge block reads of
    it outside of a request. *)
Record t : Type := Build { columns : gset string }.
End GeometryBlock.

Module pandas.
(** Modelled from the spec: a cell of an attribute table: the missing
    marker ([NaN]), a number or a text. *)
Inductive cell : Type :=
| NA
| CNum (q : Q)
| CStr (s : string).

(** Modelled from the spec: an attribute table keyed by a row index: the
    column names and the rows in order, each with its index label. Labels
    may repeat. *)
Record DataFrame : Type := Build {
  columns : list string;
  rows : list (Z * list cell)
}.

End pandas.

(** ** Python values *)

#[warnings="-register-all"]
Inductive value : Type :=
| VNone
| VStr (s : string)
| VNum (q : Q)
| VTuple (items : list value)
| VFrame (df : pandas.DataFrame).

(** A mapping with string keys: requests, responses, keyword bundles. *)
Abbreviation dict := (gmap string value).

(** [repr] of a text without quotes or escapes. *)
Definition repr_str (s : string) : string := "'" +:+ s +:+ "'".

(** [repr] of a tuple of two or more such texts. *)
Definition repr_tuple (l : list string) : string :=
  "(" +:+ String.concat ", " (repr_str <$> l) +:+ ")".

(** [str(type(v))]. *)
Definition type_str (v : value) : string :=
  match v with
  | VNone => "<class 'NoneType'>"
  | VStr _ => "<class 'str'>"
  | VNum _ => "<class 'float'>"
  | VTuple _ => "<class 'tuple'>"
  | VFrame _ => "<class 'pandas.core.frame.DataFrame'>"
  end.

(** [d[k]] *)
Definition getitem (d : dict) (k : string) : result value :=
  match d !! k with
  | Some v => Ok v
  | None => Raise (KeyError (repr_str k))
  end.

(** [d.get(k)] *)
Definition get (d : dict) (k : string) : value := default VNone (d !! k).

(** [bool(v)]: the truth value used by [if], [and], [or] and [not]. *)
Definition truth (v : value) : result bool :=
  match v with
  | VNone => Ok false
  | VStr s => Ok (negb (String.eqb s ""))
  | VNum q => Ok (negb (Qeq_bool q 0))
  | VTuple items => Ok (negb (Nat.eqb (length items) 0))
  | VFrame _ => Raise (ValueError "The truth value of a DataFrame is ambiguous.")
  end.

(** [bool(v == s)] for a text [s]: values of another type differ from every
    text; a table compares cell by cell and has no truth value. *)
Definition eq_str (v : value) (s : string) : result bool :=
  match v with
  | VStr t => Ok (String.eqb t s)
  | VFrame _ => truth v
  | _ => Ok false
  end.

(** [isinstance(v, str)] *)
Definition isinstance_str (v : value) : bool :=
  match v with
  | VStr _ => true
  | _ => false
  end.

(** [v[i]] for an index [i >= 0]. *)
Definition subscript (v : value) (i : nat) : result value :=
  match v with
  | VTuple items =>
      match items !! i with
      | Some x => Ok x
      | None => Raise (IndexError "tuple index out of range")
      end
  | VStr s =>
      match String.get i s with
      | Some c => Ok (VStr (String c EmptyString))
      | None => Raise (IndexError "string index out of range")
      end
  | VFrame _ => Raise (KeyError (pretty i))
  | VNone => Raise (TypeError "'NoneType' object is not subscriptable")
  | VNum _ => Raise (TypeError "'float' object is not subscriptable")
  end.

(** [len(v)] *)
Definition len (v : value) : result nat :=
  match v with
  | VTuple items => Ok (length items)
  | VStr s => Ok (String.length s)
  | VFrame df => Ok (length (pandas.rows df))
  | VNone => Raise (TypeError "object of type 'NoneType' has no len()")
  | VNum _ => Raise (TypeError "object of type 'float' has no len()")
  end.

(** [a + b] where [a] is a text. *)
Definition str_add (a : string) (b : value) : result string :=
  match b with
  | VStr s => Ok (a +:+ s)
  | _ => Raise (TypeError "can only concatenate str to str")
  end.

(** ** The geometry engine *)

Module shapely.
(** An axis-aligned rectangle, by its corners. *)
Record rect : Type := Rect { minx : Q; miny : Q; maxx : Q; maxy : Q }.

(** Modelled from the spec: the geometry engine (shapely, not part of
    the sources) with its [box], [intersection], [union], [is_empty] and
    [bounds] primitives. A geometry is a closed set of points of the
    plane; the ones that two rectangles produce are listed. Coordinates
    are floating-point numbers in the source; the primitives only compare
    them and pick one of them, which does not round, so they are
    rationals here (no NaN, no infinity). The primitives are meant for
    rectangles with [minx < maxx] and [miny < maxy]. *)
Inductive geometry : Type :=
| Empty
| Point (x y : Q)
| LineString (x0 y0 x1 y1 : Q)
| Polygon (r : rect)
| Union (a b : rect).

Definition qmin (a b : Q) : Q := if Qle_bool a b then a else b.
Definition qmax (a b : Q) : Q := if Qle_bool a b then b else a.

(** Modelled from the spec: [box] applied to the unpacked [args], the
    rectangle with the four numbers of [args] as [minx, miny, maxx,
    maxy]; anything else cannot be unpacked into a box. *)
Definition box (args : value) : result rect :=
  match args with
  | VTuple [VNum x0; VNum y0; VNum x1; VNum y1] => Ok (Rect x0 y0 x1 y1)
  | _ => Raise (TypeError "box() argument after * must be four numbers")
  end.

(** Modelled from the spec: [a.intersection(b)], the points that lie in
    both rectangles: nothing, a point, a segment or a rectangle. *)
Definition intersection (a b : rect) : geometry :=
  let x0 := qmax (minx a) (minx b) in
  let y0 := qmax (miny a) (miny b) in
  let x1 := qmin (maxx a) (maxx b) in
  let y1 := qmin (maxy a) (maxy b) in
  if negb (Qle_bool x0 x1) || negb (Qle_bool y0 y1) then Empty
  else if Qeq_bool x0 x1 && Qeq_bool y0 y1 then Point x0 y0
  else if Qeq_bool x0 x1 || Qeq_bool y0 y1 then LineString x0 y0 x1 y1
  else Polygon (Rect x0 y0 x1 y1).

(** Modelled from the spec: [a.union(b)], the points that lie in one of
    the two rectangles. *)
Definition union (a b : rect) : geometry := Union a b.

(** Modelled from the spec: [g.is_empty], whether [g] has no point. *)
Definition is_empty (g : geometry) : bool :=
  match g with
  | Empty => true
  | _ => false
  end.

(** Modelled from the spec: [g.bounds], the smallest rectangle that
    covers [g] as [(minx, miny, maxx, maxy)], the empty tuple for the
    empty geometry. *)
Definition bounds (g : geometry) : value :=
  let tuple x0 y0 x1 y1 := VTuple [VNum x0; VNum y0; VNum x1; VNum y1] in
  match g with
  | Empty => VTuple []
  | Point x y => tuple x y x y
  | LineString x0 y0 x1 y1 => tuple x0 y0 x1 y1
  | Polygon r => tuple (minx r) (miny r) (maxx r) (maxy r)
  | Union a b =>
      tuple (qmin (minx a) (minx b)) (qmin (miny a) (miny b))
            (qmax (maxx a) (maxx b)) (qmax (maxy a) (maxy b))
  end.
End shapely.

(** ** The table engine *)

Module pd.
Import pandas.

(** Modelled from the spec: rows are matched only when their index
    labels are equal. The cells of the rows of [rs] whose label is [i]. *)
Definition matching (i : Z) (rs : list (Z * list cell)) : list (list cell) :=
  (filter (fun r => r.1 = i) rs).*2.

(** A row of missing values, as wide as [df]. *)
Definition nulls (df : DataFrame) : list cell :=
  replicate (length (columns df)) NA.

(** Modelled from the spec: the [left] join keeps every row of [L], once
    per row of [R] with the same label, or once with the columns of [R]
    missing when [R] has none. *)
Definition left_rows (L R : DataFrame) : list (Z * list cell) :=
  row ← rows L;
  match matching row.1 (rows R) with
  | [] => [(row.1, row.2 ++ nulls R)]
  | ms => (fun r => (row.1, row.2 ++ r)) <$> ms
  end.

(** Modelled from the spec: the [right] join, the same with the sides
    exchanged. *)
Definition right_rows (L R : DataFrame) : list (Z * list cell) :=
  row ← rows R;
  match matching row.1 (rows L) with
  | [] => [(row.1, nulls L ++ row.2)]
  | ms => (fun l => (row.1, l ++ row.2)) <$> ms
  end.

(** Modelled from the spec: the [inner] join keeps the rows whose label
    is in both tables. *)
Definition inner_rows (L R : DataFrame) : list (Z * list cell) :=
  row ← rows L;
  (fun r => (row.1, row.2 ++ r)) <$> matching row.1 (rows R).

(** The rows of [R] whose label [L] does not have. *)
Definition right_only_rows (L R : DataFrame) : list (Z * list cell) :=
  row ← rows R;
  match matching row.1 (rows L) with
  | [] => [(row.1, nulls L ++ row.2)]
  | _ => []
  end.

Definition label_le (a b : Z * list cell) : Prop := (a.1 ≤ b.1)%Z.

#[export] Instance label_le_dec : RelDecision label_le :=
  fun a b => Z_le_dec a.1 b.1.

(** Modelled from the spec: the [outer] join keeps the rows of both
    tables, the columns missing on a side filled in; the engine sorts them
    by label. *)
Definition outer_rows (L R : DataFrame) : list (Z * list cell) :=
  merge_sort label_le (left_rows L R ++ right_only_rows L R).

(** Modelled from the spec: one of the two suffixes, a text or [None].
    The engine formats any other object into the column name; numbers and
    tuples as suffixes are outside this model and refused here. *)
Definition suffix_of (v : value) : result (option string) :=
  match v with
  | VNone => Ok None
  | VStr s => Ok (Some s)
  | _ => Raise (TypeError "a suffix is a str or None")
  end.

(** Modelled from the spec: a column name of one side, suffixed when the
    other side has the name too and the suffix is not [None]. *)
Definition rename (overlap : list string) (suffix : option string)
    (c : string) : string :=
  match suffix with
  | Some s => if bool_decide (c ∈ overlap) then c +:+ s else c
  | None => c
  end.

(** [not suffix] *)
Definition falsy (suffix : option string) : bool :=
  match suffix with
  | Some s => String.eqb s ""
  | None => true
  end.

(** Modelled from the spec: the items of [suffixes], which has to be
    list-like: a tuple, or a table, which yields its column names. A text,
    a number or [None] is refused with a type error. *)
Definition suffix_items (suffixes : value) : result (list value) :=
  match suffixes with
  | VTuple items => Ok items
  | VFrame df => Ok (VStr <$> columns df)
  | _ => Raise (TypeError ("Passing 'suffixes' as a " +:+ type_str suffixes
                           +:+ ", is not supported."))
  end.

(** Modelled from the spec: the labels, position by position, that repeat
    an earlier label of [new] where the name of [old] at the same position
    did not repeat an earlier name: the duplicates that renaming has
    made. [seen_new] and [seen_old] are the labels and names passed so
    far. *)
Fixpoint created_duplicates (seen_new seen_old new old : list string)
    : list string :=
  match new, old with
  | n :: new', o :: old' =>
      (if bool_decide (n ∈ seen_new) && negb (bool_decide (o ∈ seen_old))
       then [n] else [])
      ++ created_duplicates (n :: seen_new) (o :: seen_old) new' old'
  | _, _ => []
  end.

(** Modelled from the spec: the column names of the merged table. Names
    that both tables have get the suffix of their side. The engine
    refuses tables that share a name when both suffixes are empty, and
    suffixes that make a duplicate: a label that renaming made equal to
    another label of its side, or equal to a name that only the other
    side has (its [MergeError] is a [ValueError]). *)
Definition label_columns (L R : DataFrame) (suffixes : value)
    : result (list string) :=
  items <- suffix_items suffixes ;;
  let to_rename := filter (fun c => c ∈ columns R) (columns L) in
  if bool_decide (to_rename = []) then Ok (columns L ++ columns R)
  else
    match items with
    | [ls; rs] =>
        lsuffix <- suffix_of ls ;;
        rsuffix <- suffix_of rs ;;
        if falsy lsuffix && falsy rsuffix then
          Raise (ValueError "columns overlap but no suffix specified")
        else
          let llabels := rename to_rename lsuffix <$> columns L in
          let rlabels := rename to_rename rsuffix <$> columns R in
          let dups :=
            created_duplicates [] [] llabels (columns L)
            ++ created_duplicates [] [] rlabels (columns R)
            ++ filter (fun x => x ∈ columns R /\ x ∉ to_rename) llabels
            ++ filter (fun x => x ∈ columns L /\ x ∉ to_rename) rlabels in
          if bool_decide (dups = []) then Ok (llabels ++ rlabels)
          else Raise (ValueError
                 "Passing 'suffixes' which cause duplicate columns is not allowed.")
    | _ => Raise (ValueError "suffixes cannot be unpacked into two values")
    end.

(** The rows of the join named by [how]. *)
Definition join_rows (how : value) (L R : DataFrame)
    : result (list (Z * list cell)) :=
  match how with
  | VStr h =>
      if String.eqb h "left" then Ok (left_rows L R)
      else if String.eqb h "right" then Ok (right_rows L R)
      else if String.eqb h "inner" then Ok (inner_rows L R)
      else if String.eqb h "outer" then Ok (outer_rows L R)
      else Raise (ValueError "not a valid merge type")
  | _ => Raise (ValueError "not a valid merge type")
  end.

(** Modelled from the spec: the table engine's merge-by-index primitive
    (pandas, not part of the sources), [pd.merge(left, right, how=how,
    suffixes=suffixes, left_index=True, right_index=True)]. Rows are
    matched when their index labels are equal: [left] keeps every row
    of the left table, [right] every row of the right one, [inner] the
    rows whose label is in both, [outer] the rows of both; columns
    missing on a side are filled with the missing marker, and a column
    name that both tables have gets the side's suffix. *)
Definition merge (left right how suffixes : value) : result DataFrame :=
  match left, right with
  | VFrame L, VFrame R =>
      joined <- join_rows how L R ;;
      names <- label_columns L R suffixes ;;
      Ok (Build names joined)
  | _, _ => Raise (TypeError "Can only merge Series or DataFrame objects")
  end.
End pd.

(** ** The merge block *)

Module MergeGeometryBlocks.

(** Modelled from the spec: the base node keeps the constructor
    arguments as they were given ([self.args]); [left], [right], [how]
    and [suffixes] read them back. *)
Record t : Type := Build {
  left : GeometryBlock.t;
  right : GeometryBlock.t;
  how : string;
  suffixes : value
}.

Definition allow_how_joins : list string :=
  ["left"; "right"; "outer"; "inner"].

Definition default_how : string := "inner".
Definition default_suffixes : value := VTuple [VStr ""; VStr "_right"].

(** What may be passed as [left] or [right]: a geometry block, or some
    other value. *)
Inductive argument : Type :=
| Block (b : GeometryBlock.t)
| Other (v : value).

Definition not_allowed (v : value) : exn :=
  TypeError ("'" +:+ type_str v +:+ "' object is not allowed").

Definition not_an_operation (how : string) : exn :=
  KeyError ("'" +:+ how +:+ "' is not part of the list of operations: "
            +:+ repr_tuple allow_how_joins).

(** The constructor: the checks in the order of the source, each [or]
    evaluated left to right and only as far as needed. *)
Definition __init__ (left right : argument) (how : string) (suffixes : value)
    : result t :=
  match left with
  | Block l =>
      match right with
      | Block r =>
          if negb (bool_decide (how ∈ allow_how_joins)) then
            Raise (not_an_operation how)
          else
            s0 <- subscript suffixes 0 ;;
            if negb (isinstance_str s0) then Raise (not_allowed suffixes)
            else
              s1 <- subscript suffixes 1 ;;
              if negb (isinstance_str s1) then Raise (not_allowed suffixes)
              else
                n <- len suffixes ;;
                if negb (n =? 2)%nat then Raise (not_allowed suffixes)
                else Ok (Build l r how suffixes)
      | Other v => Raise (not_allowed v)
      end
  | Other v => Raise (not_allowed v)
  end.

(** The body of [for col in overlap], run over the names in [cols]. *)
Fixpoint columns_loop (self : t) (cols : list string) (acc : gset string)
    : result (gset string) :=
  match cols with
  | [] => Ok acc
  | col :: rest =>
      s0 <- subscript (suffixes self) 0 ;;
      a <- str_add col s0 ;;
      s1 <- subscript (suffixes self) 1 ;;
      b <- str_add col s1 ;;
      columns_loop self rest (acc ∪ {[a; b]})
  end.

Definition columns (self : t) : result (gset string) :=
  let left := GeometryBlock.columns (left self) in
  let right := GeometryBlock.columns (right self) in
  let result := (left ∖ right) ∪ (right ∖ left) in
  let overlap := left ∩ right in
  columns_loop self (elements overlap) result.

(** The two upstream requests and the keyword bundle for [process]. *)
Definition get_sources_and_requests (self : t) (request : dict)
    : result ((GeometryBlock.t * dict) * (GeometryBlock.t * dict) * dict) :=
  mode <- getitem request "mode" ;;
  let process_kwargs : dict :=
    {[ "how" := VStr (how self);
       "suffixes" := suffixes self;
       "mode" := mode ]} in
  Ok ((left self, request), (right self, request), process_kwargs).

(** [a and b] on the two extents: [right] is read only when the left
    extent is true. *)
Definition both_extents (left right : dict) : result bool :=
  le <- getitem left "extent" ;;
  tl <- truth le ;;
  if tl then re <- getitem right "extent" ;; truth re else Ok false.

Definition boxes (left right : dict) : traced (shapely.rect * shapely.rect) :=
  le <~ pure (getitem left "extent") ;;
  left_shape <~ engine call_box (shapely.box le) ;;
  re <~ pure (getitem right "extent") ;;
  right_shape <~ engine call_box (shapely.box re) ;;
  done (left_shape, right_shape).

(** [values] of the [inner] branch. *)
Definition inner_extent (left right : dict) : traced value :=
  both <~ pure (both_extents left right) ;;
  if both then
    shapes <~ boxes left right ;;
    extent <~ engine call_intersection
                (Ok (shapely.intersection shapes.1 shapes.2)) ;;
    empty <~ engine call_is_empty (Ok (shapely.is_empty extent)) ;;
    if empty then done VNone
    else engine call_bounds (Ok (shapely.bounds extent))
  else done VNone.

(** [values] of the [outer] branch. *)
Definition outer_extent (left right : dict) : traced value :=
  both <~ pure (both_extents left right) ;;
  if both then
    shapes <~ boxes left right ;;
    u <~ engine call_union (Ok (shapely.union shapes.1 shapes.2)) ;;
    engine call_bounds (Ok (shapely.bounds u))
  else
    le <~ pure (getitem left "extent") ;;
    tl <~ pure (truth le) ;;
    if tl then pure (getitem left "extent")
    else
      re <~ pure (getitem right "extent") ;;
      tr <~ pure (truth re) ;;
      if tr then pure (getitem right "extent")
      else done VNone.

(** [mode == "intersects" or mode == "centroid"] *)
Definition table_mode (mode : value) : result bool :=
  a <- eq_str mode "intersects" ;;
  if a then Ok true else eq_str mode "centroid".

(** The combination step; [None] is the Python [None] that falls out of
    the function when no branch returns. *)
Definition process (left right : dict) (kwargs : dict)
    : traced (option dict) :=
  mode <~ pure (getitem kwargs "mode") ;;
  how <~ pure (getitem kwargs "how") ;;
  projection <~ pure (getitem left "projection") ;;
  tm <~ pure (table_mode mode) ;;
  if tm then
    lf <~ pure (getitem left "features") ;;
    rf <~ pure (getitem right "features") ;;
    merged <~ engine call_merge
                (pd.merge lf rf (get kwargs "how") (get kwargs "suffixes")) ;;
    done (Some ({[ "features" := VFrame merged;
                   "projection" := projection ]} : dict))
  else
    em <~ pure (eq_str mode "extent") ;;
    if em then
      hl <~ pure (eq_str how "left") ;;
      if hl then done (Some left)
      else
        hr <~ pure (eq_str how "right") ;;
        if hr then done (Some right)
        else
          hi <~ pure (eq_str how "inner") ;;
          if hi then
            values <~ inner_extent left right ;;
            done (Some ({[ "extent" := values;
                           "projection" := projection ]} : dict))
          else
            ho <~ pure (eq_str how "outer") ;;
            if ho then
              values <~ outer_extent left right ;;
              done (Some ({[ "extent" := values;
                             "projection" := projection ]} : dict))
            else done None
    else done None.

End MergeGeometryBlocks.

(** * The specification's side

    Definitions in the words of the specification, to state what the code
    above is compared with. *)

(** The column set of the merged block: the names on exactly one side, and
    both suffixed variants of every name on both sides. *)
Definition columns_spec (L R : gset string) (s0 s1 : string) : gset string :=
  ((L ∖ R) ∪ (R ∖ L))
  ∪ set_map (fun c => c +:+ s0) (L ∩ R)
  ∪ set_map (fun c => c +:+ s1) (L ∩ R).

(** The extent that stands for the rectangle [r]. *)
Definition extent_of (r : shapely.rect) : value :=
  VTuple [VNum (shapely.minx r); VNum (shapely.miny r);
          VNum (shapely.maxx r); VNum (shapely.maxy r)].

Section Boxes.
Import shapely.
Variables (a b : rect).

(** A box with an inside. *)
Definition proper_box (r : rect) : Prop :=
  (minx r < maxx r)%Q /\ (miny r < maxy r)%Q.

(** No point lies in both boxes. *)
Definition disjoint_boxes : Prop :=
  (maxx a < minx b)%Q \/ (maxx b < minx a)%Q
  \/ (maxy a < miny b)%Q \/ (maxy b < miny a)%Q.

(** The insides of the boxes meet. *)
Definition overlapping_boxes : Prop :=
  (minx a < maxx b)%Q /\ (minx b < maxx a)%Q
  /\ (miny a < maxy b)%Q /\ (miny b < maxy a)%Q.

(** The boxes meet, but only along an edge or at a corner. *)
Definition touching_boxes : Prop :=
  ((minx a <= maxx b)%Q /\ (minx b <= maxx a)%Q
   /\ (miny a <= maxy b)%Q /\ (miny b <= maxy a)%Q)
  /\ ((maxx a == minx b)%Q \/ (maxx b == minx a)%Q
      \/ (maxy a == miny b)%Q \/ (maxy b == miny a)%Q).

(** The box of the points that lie in both boxes. *)
Definition intersection_box : rect :=
  Rect (qmax (minx a) (minx b)) (qmax (miny a) (miny b))
       (qmin (maxx a) (maxx b)) (qmin (maxy a) (maxy b)).
End Boxes.

(** The smallest box that covers the boxes [a] and [b]. *)
Definition covering_box (a b : shapely.rect) : shapely.rect :=
  shapely.Rect (shapely.qmin (shapely.minx a) (shapely.minx b))
               (shapely.qmin (shapely.miny a) (shapely.miny b))
               (shapely.qmax (shapely.maxx a) (shapely.maxx b))
               (shapely.qmax (shapely.maxy a) (shapely.maxy b)).

(** The box [inner] lies within the box [outer]. *)
Definition box_within (inner outer : shapely.rect) : Prop :=
  (shapely.minx outer <= shapely.minx inner)%Q
  /\ (shapely.miny outer <= shapely.miny inner)%Q
  /\ (shapely.maxx inner <= shapely.maxx outer)%Q
  /\ (shapely.maxy inner <= shapely.maxy outer)%Q.

(** A box that may have no inside: a point or a segment is one. *)
Definition flat_or_proper_box (r : shapely.rect) : Prop :=
  (shapely.minx r <= shapely.maxx r)%Q /\ (shapely.miny r <= shapely.maxy r)%Q.

(** A response that an upstream block gives in extent mode: a projection
    and an extent that is [None] or the four numbers of a box with an
    inside. *)
Definition extent_response_ok (resp : dict) : Prop :=
  (exists e, resp !! "extent" = Some e
             /\ (e = VNone \/ exists r, proper_box r /\ e = extent_of r))
  /\ is_Some (resp !! "projection").

(** A response that the merge block gives in extent mode: a projection
    and an extent that is [None] or the four numbers of a box, which may
    have no inside. *)
Definition extent_response_shape (resp : dict) : Prop :=
  (exists e, resp !! "extent" = Some e
             /\ (e = VNone
                 \/ exists r, flat_or_proper_box r /\ e = extent_of r))
  /\ is_Some (resp !! "projection").

(** * Sample inputs *)

Module sample.
(** Two upstream blocks that share the column [id]. *)
Definition left_block : GeometryBlock.t :=
  GeometryBlock.Build {["id"; "area"]}.
Definition right_block : GeometryBlock.t :=
  GeometryBlock.Build {["id"; "name"]}.

(** An extent response: a box and a projection. *)
Definition extent_response (x0 y0 x1 y1 : Q) (projection : string) : dict :=
  {[ "extent" := VTuple [VNum x0; VNum y0; VNum x1; VNum y1];
     "projection" := VStr projection ]}.

(** A response that reports no extent. *)
Definition no_extent_response (projection : string) : dict :=
  {[ "extent" := VNone; "projection" := VStr projection ]}.

(** The keyword bundle that a block configured with [how] passes to
    [process] for a request in [mode]. *)
Definition kwargs (how mode : string) : dict :=
  {[ "how" := VStr how;
     "suffixes" := MergeGeometryBlocks.default_suffixes;
     "mode" := VStr mode ]}.


(** A features response. *)
Definition features_response (df : pandas.DataFrame) (projection : string)
    : dict :=
  {[ "features" := VFrame df; "projection" := VStr projection ]}.

(** Two tables over the features 1, 3 and 3, 2, both with a column
    [value]. *)
Definition left_table : pandas.DataFrame :=
  pandas.Build ["value"]
    [(1%Z, [pandas.CNum 10]); (3%Z, [pandas.CNum 30])].

(** A response whose extent is the empty tuple. *)
Definition empty_extent_response (projection : string) : dict :=
  {[ "extent" := VTuple []; "projection" := VStr projection ]}.

(** A response that holds a projection only. *)
Definition projection_response (projection : string) : dict :=
  {[ "projection" := VStr projection ]}.

(** A response that holds an extent only. *)
Definition extent_only_response : dict := {[ "extent" := VNone ]}.

Definition rd_left : dict := extent_response 0 0 10 10 "EPSG:28992".
Definition wgs_right : dict := extent_response 5 5 15 15 "EPSG:4326".
End sample.

(** * Properties *)

Import MergeGeometryBlocks.

(** ** Construction *)

Section Construction.
Variables (l r : GeometryBlock.t).

Lemma init_checks_how (how : string) (suffixes : value) :
  how ∉ allow_how_joins ->
  __init__ (Block l) (Block r) how suffixes = Raise (not_an_operation how).
Proof.
  intros Hhow. unfold __init__.
  rewrite bool_decide_eq_false_2 by exact Hhow. reflexivity.
Qed.

Lemma init_pair_of_strings (how s0 s1 : string) :
  how ∈ allow_how_joins ->
  __init__ (Block l) (Block r) how (VTuple [VStr s0; VStr s1])
  = Ok (Build l r how (VTuple [VStr s0; VStr s1])).
Proof.
  intros Hhow. unfold __init__.
  rewrite bool_decide_eq_true_2 by exact Hhow. reflexivity.
Qed.

(** A sequence with fewer than two items never reaches the length check:
    reading the missing item fails first. *)
Lemma init_short_tuple (how s0 : string) :
  how ∈ allow_how_joins ->
  __init__ (Block l) (Block r) how (VTuple [VStr s0])
  = Raise (IndexError "tuple index out of range").
Proof.
  intros Hhow. unfold __init__.
  rewrite bool_decide_eq_true_2 by exact Hhow. reflexivity.
Qed.

(** A tuple of two or more items that is not a pair of texts is refused
    with the type error. *)
Lemma init_long_tuple (how : string) (x0 x1 : value) (rest : list value) :
  how ∈ allow_how_joins ->
  isinstance_str x0 && isinstance_str x1 && bool_decide (rest = []) = false ->
  __init__ (Block l) (Block r) how (VTuple (x0 :: x1 :: rest))
  = Raise (not_allowed (VTuple (x0 :: x1 :: rest))).
Proof.
  intros Hhow Hbad. unfold __init__.
  rewrite bool_decide_eq_true_2 by exact Hhow. cbn.
  destruct (isinstance_str x0); cbn; [|reflexivity].
  destruct (isinstance_str x1); cbn; [|reflexivity].
  destruct rest; [discriminate Hbad | reflexivity].
Qed.
End Construction.

(** C2, at the input where the constructor departs from it: with
    [suffixes=("a",)] the constructor raises [IndexError], not the type
    error, because [suffixes[1]] is read before the length is checked. *)
Theorem init_one_suffix_raises_index_error (l r : GeometryBlock.t) :
  __init__ (Block l) (Block r) "inner" (VTuple [VStr "a"])
  = Raise (IndexError "tuple index out of range").
Proof. apply init_short_tuple. unfold allow_how_joins. set_solver. Qed.

(** C7: a join kind outside [allow_how_joins] is refused by the
    constructor itself, with a [KeyError] whose message spells out the four
    join kinds. *)
Theorem init_rejects_unknown_how
    (l r : GeometryBlock.t) (how : string) (suffixes : value) :
  how ∉ ["left"; "right"; "outer"; "inner"] ->
  __init__ (Block l) (Block r) how suffixes
  = Raise (KeyError ("'" +:+ how +:+ "' is not part of the list of operations: "
                     +:+ "('left', 'right', 'outer', 'inner')")).
Proof. intros Hhow. rewrite init_checks_how by exact Hhow. reflexivity. Qed.

(** The join kind [bogus] is refused. *)
Lemma init_rejects_bogus :
  ("bogus" ∉ ["left"; "right"; "outer"; "inner"])
  /\ (__init__ (Block (GeometryBlock.Build ∅)) (Block (GeometryBlock.Build ∅))
        "bogus" default_suffixes
      = Raise (KeyError
          "'bogus' is not part of the list of operations: ('left', 'right', 'outer', 'inner')")).
Proof.
  assert (Hno : "bogus" ∉ ["left"; "right"; "outer"; "inner"]).
  { apply not_elem_of_cons; split; [discriminate|].
    apply not_elem_of_cons; split; [discriminate|].
    apply not_elem_of_cons; split; [discriminate|].
    apply not_elem_of_cons; split; [discriminate|]. apply not_elem_of_nil. }
  split; [exact Hno|].
  exact (init_rejects_unknown_how _ _ "bogus" default_suffixes Hno).
Defined.

(** ** The schema *)

Section Schema.
Lemma columns_loop_pair (self : t) (s0 s1 : string) (cols : list string)
    (acc : gset string) :
  suffixes self = VTuple [VStr s0; VStr s1] ->
  columns_loop self cols acc
  = Ok (acc ∪ list_to_set ((fun c => c +:+ s0) <$> cols)
            ∪ list_to_set ((fun c => c +:+ s1) <$> cols)).
Proof.
  intros Hs. revert acc.
  induction cols as [|col rest IH]; intros acc; cbn [columns_loop].
  - f_equal. cbn. set_solver.
  - rewrite Hs. cbn. rewrite IH. f_equal. set_solver.
Qed.

Lemma columns_closed_form (l r : GeometryBlock.t) (how s0 s1 : string) :
  columns (Build l r how (VTuple [VStr s0; VStr s1]))
  = Ok (columns_spec (GeometryBlock.columns l) (GeometryBlock.columns r)
          s0 s1).
Proof.
  unfold columns. erewrite columns_loop_pair by reflexivity.
  reflexivity.
Qed.

Lemma elem_of_columns_spec (L R : gset string) (s0 s1 x : string) :
  x ∈ columns_spec L R s0 s1 <->
  (x ∈ L /\ x ∉ R) \/ (x ∈ R /\ x ∉ L)
  \/ exists c, c ∈ L /\ c ∈ R /\ (x = c +:+ s0 \/ x = c +:+ s1).
Proof.
  unfold columns_spec. rewrite !elem_of_union, !elem_of_map.
  rewrite !elem_of_difference. setoid_rewrite elem_of_intersection.
  naive_solver.
Qed.

Lemma columns_spec_swap (L R : gset string) (s0 s1 : string) :
  columns_spec L R s0 s1 = columns_spec R L s1 s0.
Proof.
  apply set_eq. intros x. rewrite !elem_of_columns_spec. naive_solver.
Qed.
End Schema.

(** C4: the columns of a merge block built with a pair of texts as
    suffixes are the names on exactly one side together with both suffixed
    variants of every name on both sides, whatever the join kind. *)
Theorem columns_is_schema_for_every_how
    (l r : GeometryBlock.t) (how s0 s1 : string) :
  how ∈ allow_how_joins ->
  let L := GeometryBlock.columns l in
  let R := GeometryBlock.columns r in
  exists node cols,
    __init__ (Block l) (Block r) how (VTuple [VStr s0; VStr s1]) = Ok node
    /\ columns node = Ok cols
    /\ cols = ((L ∖ R) ∪ (R ∖ L))
              ∪ set_map (fun c => c +:+ s0) (L ∩ R)
              ∪ set_map (fun c => c +:+ s1) (L ∩ R)
    /\ (forall x : string,
          x ∈ cols <->
          (x ∈ L /\ x ∉ R) \/ (x ∈ R /\ x ∉ L)
          \/ exists c, c ∈ L /\ c ∈ R /\ (x = c +:+ s0 \/ x = c +:+ s1))
    /\ (forall how' : string,
          how' ∈ allow_how_joins ->
          exists node',
            __init__ (Block l) (Block r) how' (VTuple [VStr s0; VStr s1])
            = Ok node'
            /\ columns node' = Ok cols).
Proof.
  intros Hhow L R.
  exists (Build l r how (VTuple [VStr s0; VStr s1])), (columns_spec L R s0 s1).
  split; [apply init_pair_of_strings; exact Hhow|].
  split; [apply columns_closed_form|].
  split; [reflexivity|].
  split; [intros x; apply elem_of_columns_spec|].
  intros how' Hhow'.
  exists (Build l r how' (VTuple [VStr s0; VStr s1])).
  split; [apply init_pair_of_strings; exact Hhow'|].
  apply columns_closed_form.
Qed.

Lemma inner_is_allowed : "inner" ∈ allow_how_joins.
Proof. unfold allow_how_joins. do 3 apply list_elem_of_further. apply list_elem_of_here. Defined.

(** Two blocks that share [id]: the shared name is suffixed on both sides. *)
Lemma columns_is_schema_sample :
  exists node cols,
    __init__ (Block sample.left_block) (Block sample.right_block) "inner"
      (VTuple [VStr ""; VStr "_right"]) = Ok node
    /\ columns node = Ok cols
    /\ cols = {["area"; "name"; "id"; "id_right"]}.
Proof.
  destruct (columns_is_schema_for_every_how sample.left_block sample.right_block
              "inner" "" "_right" inner_is_allowed)
    as (node & cols & Hnode & Hcols & Heq & _).
  exists node, cols. split; [exact Hnode|]. split; [exact Hcols|].
  rewrite Heq. vm_compute. reflexivity.
Defined.

(** C8: exchanging the two upstream blocks together with the two suffixes
    leaves the column set unchanged. *)
Theorem columns_swap_sides_and_suffixes
    (l r : GeometryBlock.t) (how s0 s1 : string) :
  how ∈ allow_how_joins ->
  exists node swapped cols,
    __init__ (Block l) (Block r) how (VTuple [VStr s0; VStr s1]) = Ok node
    /\ __init__ (Block r) (Block l) how (VTuple [VStr s1; VStr s0])
       = Ok swapped
    /\ columns node = Ok cols
    /\ columns swapped = Ok cols.
Proof.
  intros Hhow.
  exists (Build l r how (VTuple [VStr s0; VStr s1])),
         (Build r l how (VTuple [VStr s1; VStr s0])),
         (columns_spec (GeometryBlock.columns l) (GeometryBlock.columns r) s0 s1).
  split; [apply init_pair_of_strings; exact Hhow|].
  split; [apply init_pair_of_strings; exact Hhow|].
  split; [apply columns_closed_form|].
  rewrite columns_closed_form. f_equal. apply columns_spec_swap.
Qed.

(** The same two blocks, exchanged together with their suffixes. *)
Lemma columns_swap_sample :
  exists node swapped cols,
    __init__ (Block sample.left_block) (Block sample.right_block) "inner"
      (VTuple [VStr "_l"; VStr "_r"]) = Ok node
    /\ __init__ (Block sample.right_block) (Block sample.left_block) "inner"
         (VTuple [VStr "_r"; VStr "_l"]) = Ok swapped
    /\ columns node = Ok cols
    /\ columns swapped = Ok cols.
Proof.
  exact (columns_swap_sides_and_suffixes sample.left_block sample.right_block
           "inner" "_l" "_r" inner_is_allowed).
Defined.

(** ** Reading Python values *)

Section Values.
Lemma getitem_Some (d : dict) (k : string) (v : value) :
  d !! k = Some v -> getitem d k = Ok v.
Proof. intros H. unfold getitem. rewrite H. reflexivity. Qed.

Lemma getitem_Ok (d : dict) (k : string) (v : value) :
  getitem d k = Ok v -> d !! k = Some v.
Proof. unfold getitem. destruct (d !! k); [congruence | discriminate]. Qed.

Lemma eq_str_true (v : value) (s : string) :
  eq_str v s = Ok true -> v = VStr s.
Proof.
  destruct v; cbn; try discriminate.
  intros [= H]. apply String.eqb_eq in H. congruence.
Qed.

Lemma eq_str_same (s : string) : eq_str (VStr s) s = Ok true.
Proof. cbn. rewrite String.eqb_refl. reflexivity. Qed.

Lemma eq_str_false (v : value) (s : string) :
  (forall df, v <> VFrame df) -> v <> VStr s -> eq_str v s = Ok false.
Proof.
  intros Hframe Hne. destruct v; cbn; try reflexivity.
  - destruct (String.eqb_spec s0 s); [congruence | reflexivity].
  - destruct (Hframe df). reflexivity.
Qed.
End Values.

(** ** The request fan-out *)

(** A block with the default suffixes hands [process] the bundle
    [sample.kwargs], and both upstream blocks the request as it is. *)
Lemma get_sources_and_requests_kwargs
    (l r : GeometryBlock.t) (how mode : string) (request : dict) :
  request !! "mode" = Some (VStr mode) ->
  get_sources_and_requests (Build l r how default_suffixes) request
  = Ok ((l, request), (r, request), sample.kwargs how mode).
Proof.
  intros Hmode. unfold get_sources_and_requests.
  rewrite (getitem_Some _ _ _ Hmode). reflexivity.
Qed.

(** ** Traced computations *)

Section Traces.
Context {A B : Type}.

Lemma traced_bind_pure_ok (a : A) (f : A -> traced B) :
  traced_bind (pure (Ok a)) f = f a.
Proof. unfold traced_bind. cbn. destruct (f a). reflexivity. Qed.

Lemma traced_bind_done (a : A) (f : A -> traced B) :
  traced_bind (done a) f = f a.
Proof. apply traced_bind_pure_ok. Qed.

Lemma traced_bind_ok (cs : list call) (a : A) (f : A -> traced B) :
  traced_bind (Traced cs (Ok a)) f
  = Traced (cs ++ calls (f a)) (outcome (f a)).
Proof. reflexivity. Qed.

Lemma traced_bind_returns (m : traced A) (f : A -> traced B) (b : B) :
  outcome (traced_bind m f) = Ok b ->
  exists a, outcome m = Ok a /\ outcome (f a) = Ok b.
Proof.
  unfold traced_bind. destruct (outcome m) as [a|e]; cbn; [|discriminate].
  intros H. exists a. split; [reflexivity | exact H].
Qed.
End Traces.

(** Splits a hypothesis [outcome (x <~ m ;; k) = Ok _] into the value of
    [m] and the rest. *)
Tactic Notation "returns" hyp(H) ident(x) ident(Hx) :=
  apply traced_bind_returns in H as (x & Hx & H); cbn [outcome pure done] in Hx.

(** Runs the steps whose result is known. *)
Ltac run :=
  repeat first
    [ rewrite traced_bind_pure_ok
    | rewrite traced_bind_done
    | rewrite traced_bind_ok
    | progress unfold engine
    | progress cbn [calls outcome app done pure] ].

(** ** The combination step *)

Section Process.
Variables (left right kwargs : dict).

(** The responses that [process] can return. *)
Lemma process_returns (resp : dict) :
  outcome (process left right kwargs) = Ok (Some resp) ->
  exists mode how p,
    kwargs !! "mode" = Some mode
    /\ kwargs !! "how" = Some how
    /\ left !! "projection" = Some p
    /\ ((mode = VStr "intersects" \/ mode = VStr "centroid")
        /\ (exists merged : pandas.DataFrame,
              resp = {[ "features" := VFrame merged; "projection" := p ]})
        \/ mode = VStr "extent"
           /\ (how = VStr "left" /\ resp = left
               \/ how = VStr "right" /\ resp = right
               \/ (how = VStr "inner" \/ how = VStr "outer")
                  /\ exists values : value,
                       resp = {[ "extent" := values; "projection" := p ]})).
Proof.
  intros H. unfold process in H.
  returns H mode Hmode. returns H how Hhow. returns H p Hp.
  returns H tm Htm.
  apply getitem_Ok in Hmode, Hhow, Hp.
  exists mode, how, p. do 3 (split; [assumption|]).
  destruct tm.
  - left. split.
    + unfold table_mode in Htm.
      destruct (eq_str mode "intersects") as [[|]|] eqn:Hi;
        cbn in Htm; try discriminate.
      * left. apply eq_str_true. exact Hi.
      * right. apply eq_str_true. exact Htm.
    + returns H lf Hlf. returns H rf Hrf. returns H merged Hmerged.
      cbn in H. injection H as <-. exists merged. reflexivity.
  - right. returns H em Hem. destruct em; [|discriminate H].
    split; [apply eq_str_true; exact Hem|].
    returns H hl Hl. destruct hl.
    { left. cbn in H. injection H as <-.
      split; [apply eq_str_true; exact Hl | reflexivity]. }
    returns H hr Hr. destruct hr.
    { right; left. cbn in H. injection H as <-.
      split; [apply eq_str_true; exact Hr | reflexivity]. }
    right; right.
    returns H hi Hi. destruct hi.
    { returns H values Hv. cbn in H. injection H as <-.
      split; [left; apply eq_str_true; exact Hi|].
      exists values. reflexivity. }
    returns H ho Ho. destruct ho; [|discriminate H].
    returns H values Hv. cbn in H. injection H as <-.
    split; [right; apply eq_str_true; exact Ho|].
    exists values. reflexivity.
Qed.
End Process.

(** C1 fails as stated: in extent mode with the join kind [right] the
    right response is returned as it is, with its own projection. *)
Lemma process_extent_right_keeps_right_projection :
  exists resp : dict,
    outcome (process sample.rd_left sample.wgs_right
               (sample.kwargs "right" "extent")) = Ok (Some resp)
    /\ resp !! "projection" = Some (VStr "EPSG:4326")
    /\ sample.rd_left !! "projection" = Some (VStr "EPSG:28992")
    /\ resp !! "projection" <> sample.rd_left !! "projection".
Proof.
  exists sample.wgs_right.
  split; [reflexivity|]. split; [reflexivity|]. split; [reflexivity|].
  vm_compute. discriminate.
Qed.

(** C1, amended: a response returned by [process] carries the projection
    of the left response, except in extent mode with the join kind
    [right], where the right response is returned as it is. *)
Theorem process_projection_from_left_unless_extent_right
    (left right kwargs resp : dict) :
  outcome (process left right kwargs) = Ok (Some resp) ->
  (kwargs !! "mode" = Some (VStr "extent") ->
   kwargs !! "how" = Some (VStr "right") ->
   resp = right)
  /\ (~ (kwargs !! "mode" = Some (VStr "extent")
         /\ kwargs !! "how" = Some (VStr "right")) ->
      is_Some (left !! "projection")
      /\ resp !! "projection" = left !! "projection").
Proof.
  intros H.
  destruct (process_returns _ _ _ _ H)
    as (mode & how & p & Hmode & Hhow & Hp & Hcases).
  rewrite Hmode, Hhow, Hp. split.
  - intros [= ->] [= ->].
    destruct Hcases as [[[Hm|Hm] _]|[_ [[Hh _]|[[_ Hr]|[[Hh|Hh] _]]]]];
      try discriminate; exact Hr.
  - intros Hnot. split; [eexists; reflexivity|].
    destruct Hcases as [[_ [merged ->]]|[-> [[_ ->]|[[-> _]|[_ [values ->]]]]]].
    + rewrite lookup_insert_ne by discriminate. apply lookup_singleton_eq.
    + exact Hp.
    + destruct Hnot. split; reflexivity.
    + rewrite lookup_insert_ne by discriminate. apply lookup_singleton_eq.
Qed.

(** The [inner] extent of two boxes carries the left projection. *)
Lemma process_projection_inner_extent_sample :
  exists resp : dict,
    outcome (process sample.rd_left sample.wgs_right
               (sample.kwargs "inner" "extent")) = Ok (Some resp)
    /\ resp !! "extent" = Some (VTuple [VNum 5; VNum 5; VNum 10; VNum 10])
    /\ resp !! "projection" = sample.rd_left !! "projection".
Proof.
  eexists. split; [vm_compute; reflexivity|].
  split; [vm_compute; reflexivity|].
  refine (proj2 (proj2 (process_projection_from_left_unless_extent_right
            sample.rd_left sample.wgs_right (sample.kwargs "inner" "extent")
            _ _) _)).
  - vm_compute. reflexivity.
  - intros [_ Hhow]. vm_compute in Hhow. discriminate Hhow.
Defined.

(** C10: for a mode that is none of [intersects], [centroid] and
    [extent], [process] takes no branch: it returns [None] and calls no
    engine, whatever the two responses hold besides the projection and
    whatever the join kind. *)
Theorem process_unknown_mode_returns_none
    (left right kwargs : dict) (mode how p : value) :
  kwargs !! "mode" = Some mode ->
  kwargs !! "how" = Some how ->
  left !! "projection" = Some p ->
  (forall df, mode <> VFrame df) ->
  mode <> VStr "intersects" ->
  mode <> VStr "centroid" ->
  mode <> VStr "extent" ->
  process left right kwargs = Traced [] (Ok None).
Proof.
  intros Hmode Hhow Hp Hframe Hi Hc He. unfold process.
  rewrite (getitem_Some _ _ _ Hmode), (getitem_Some _ _ _ Hhow),
    (getitem_Some _ _ _ Hp).
  run. unfold table_mode.
  rewrite (eq_str_false _ _ Hframe Hi). cbn [result_bind].
  rewrite (eq_str_false _ _ Hframe Hc). run.
  rewrite (eq_str_false _ _ Hframe He). run. reflexivity.
Qed.

(** The mode [bogus] returns nothing. *)
Lemma process_unknown_mode_sample :
  process sample.rd_left sample.wgs_right (sample.kwargs "outer" "bogus")
  = Traced [] (Ok None).
Proof.
  apply (process_unknown_mode_returns_none _ _ _
           (VStr "bogus") (VStr "outer") (VStr "EPSG:28992"));
    try reflexivity; discriminate.
Defined.

(** ** Extents *)

(** Evaluates the comparisons of two known texts. *)
Ltac compare_texts :=
  repeat match goal with
  | |- context [table_mode (VStr ?a)] =>
      let v := eval vm_compute in (table_mode (VStr a)) in
      change (table_mode (VStr a)) with v
  | |- context [eq_str (VStr ?a) ?b] =>
      let v := eval vm_compute in (eq_str (VStr a) b) in
      change (eq_str (VStr a) b) with v
  end.

Section Extents.
Variables (left right kwargs : dict) (le re p : value).
Hypothesis Hmode : kwargs !! "mode" = Some (VStr "extent").
Hypothesis Hle : left !! "extent" = Some le.
Hypothesis Hre : right !! "extent" = Some re.
Hypothesis Hp : left !! "projection" = Some p.

Lemma both_extents_truth :
  both_extents left right
  = (tl <- truth le ;; if tl then truth re else Ok false).
Proof.
  unfold both_extents.
  rewrite (getitem_Some _ _ _ Hle), (getitem_Some _ _ _ Hre). reflexivity.
Qed.

(** The [inner] and [outer] branches, reduced to the computation of
    [values]. *)
Lemma process_inner :
  kwargs !! "how" = Some (VStr "inner") ->
  process left right kwargs
  = (values <~ inner_extent left right ;;
     done (Some ({[ "extent" := values; "projection" := p ]} : dict))).
Proof.
  intros Hhow. unfold process.
  rewrite (getitem_Some _ _ _ Hmode), (getitem_Some _ _ _ Hhow),
    (getitem_Some _ _ _ Hp).
  run. compare_texts. run. reflexivity.
Qed.

Lemma process_outer :
  kwargs !! "how" = Some (VStr "outer") ->
  process left right kwargs
  = (values <~ outer_extent left right ;;
     done (Some ({[ "extent" := values; "projection" := p ]} : dict))).
Proof.
  intros Hhow. unfold process.
  rewrite (getitem_Some _ _ _ Hmode), (getitem_Some _ _ _ Hhow),
    (getitem_Some _ _ _ Hp).
  run. compare_texts. run. reflexivity.
Qed.

Lemma inner_extent_absent :
  (le = VNone \/ truth le = Ok true) ->
  le = VNone \/ re = VNone ->
  inner_extent left right = Traced [] (Ok VNone).
Proof.
  intros Hl Habs. unfold inner_extent. rewrite both_extents_truth.
  destruct Habs as [Hnone | Hnone].
  - rewrite Hnone. reflexivity.
  - rewrite Hnone. destruct Hl as [Hl | Hl]; rewrite Hl; reflexivity.
Qed.

Lemma outer_extent_left_absent :
  le = VNone ->
  (re = VNone \/ truth re = Ok true) ->
  outer_extent left right = Traced [] (Ok re).
Proof.
  intros Hl Hr. unfold outer_extent.
  rewrite both_extents_truth, (getitem_Some _ _ _ Hle),
    (getitem_Some _ _ _ Hre).
  rewrite Hl. cbn [truth result_bind]. run. cbn [truth]. run.
  destruct Hr as [Hr | Hr]; rewrite Hr; reflexivity.
Qed.

Lemma outer_extent_right_absent :
  truth le = Ok true ->
  re = VNone ->
  outer_extent left right = Traced [] (Ok le).
Proof.
  intros Hl Hr. unfold outer_extent.
  rewrite both_extents_truth, (getitem_Some _ _ _ Hle).
  rewrite Hl, Hr. cbn [truth result_bind]. run. rewrite Hl. run.
  reflexivity.
Qed.
End Extents.

(** C5: in extent mode, when an extent is absent ([None]) on at least one
    side, [inner] answers with no extent and [outer] with the extent of the
    other side as it is (with no extent when both are absent); neither
    calls the geometry engine. *)
Theorem process_extent_absence
    (left right kwargs : dict) (le re p : value) :
  kwargs !! "mode" = Some (VStr "extent") ->
  left !! "extent" = Some le ->
  right !! "extent" = Some re ->
  left !! "projection" = Some p ->
  (le = VNone \/ truth le = Ok true) ->
  (re = VNone \/ truth re = Ok true) ->
  le = VNone \/ re = VNone ->
  (kwargs !! "how" = Some (VStr "inner") ->
   process left right kwargs
   = Traced [] (Ok (Some {[ "extent" := VNone; "projection" := p ]})))
  /\ (kwargs !! "how" = Some (VStr "outer") ->
      (le = VNone ->
       process left right kwargs
       = Traced [] (Ok (Some {[ "extent" := re; "projection" := p ]})))
      /\ (re = VNone ->
          process left right kwargs
          = Traced [] (Ok (Some {[ "extent" := le; "projection" := p ]})))).
Proof.
  intros Hmode Hle Hre Hp Hl Hr Habs. split; [|split].
  - intros Hhow. rewrite (process_inner _ _ _ p Hmode Hp Hhow).
    rewrite (inner_extent_absent _ _ le re Hle Hre Hl Habs). reflexivity.
  - intros Hlnone. rewrite (process_outer _ _ _ p Hmode Hp H).
    rewrite (outer_extent_left_absent _ _ le re Hle Hre Hlnone Hr).
    reflexivity.
  - intros Hrnone. rewrite (process_outer _ _ _ p Hmode Hp H).
    destruct Hl as [Hlnone | Hl].
    + rewrite (outer_extent_left_absent _ _ le re Hle Hre Hlnone Hr).
      rewrite Hlnone, Hrnone. reflexivity.
    + rewrite (outer_extent_right_absent _ _ le re Hle Hre Hl Hrnone).
      reflexivity.
Qed.

(** No extent on the left and a box on the right: [inner] gives no extent,
    [outer] the box. *)
Lemma process_extent_absence_sample :
  process (sample.no_extent_response "EPSG:28992") sample.wgs_right
          (sample.kwargs "inner" "extent")
  = Traced [] (Ok (Some {[ "extent" := VNone;
                           "projection" := VStr "EPSG:28992" ]}))
  /\ process (sample.no_extent_response "EPSG:28992") sample.wgs_right
             (sample.kwargs "outer" "extent")
     = Traced [] (Ok (Some {[ "extent" :=
                                VTuple [VNum 5; VNum 5; VNum 15; VNum 15];
                              "projection" := VStr "EPSG:28992" ]})).
Proof.
  split.
  - apply (proj1 (process_extent_absence
                    (sample.no_extent_response "EPSG:28992") sample.wgs_right
                    (sample.kwargs "inner" "extent")
                    VNone (VTuple [VNum 5; VNum 5; VNum 15; VNum 15])
                    (VStr "EPSG:28992")
                    eq_refl eq_refl eq_refl eq_refl
                    (or_introl eq_refl) (or_intror eq_refl)
                    (or_introl eq_refl))).
    reflexivity.
  - apply (proj2 (process_extent_absence
                    (sample.no_extent_response "EPSG:28992") sample.wgs_right
                    (sample.kwargs "outer" "extent")
                    VNone (VTuple [VNum 5; VNum 5; VNum 15; VNum 15])
                    (VStr "EPSG:28992")
                    eq_refl eq_refl eq_refl eq_refl
                    (or_introl eq_refl) (or_intror eq_refl)
                    (or_introl eq_refl))); reflexivity.
Defined.

(** ** Boxes that meet and boxes that do not *)

(** Turns the tests on coordinates into facts and decides the cases. *)
Ltac coordinates :=
  unfold shapely.qmax, shapely.qmin in *;
  repeat match goal with
  | |- context [Qle_bool ?u ?v] =>
      let E := fresh "E" in
      destruct (Qle_bool u v) eqn:E;
      [ apply Qle_bool_iff in E
      | assert (~ (u <= v)%Q)
          by (rewrite <- Qle_bool_iff, E; discriminate); clear E ]
  | |- context [Qeq_bool ?u ?v] =>
      let E := fresh "E" in
      destruct (Qeq_bool u v) eqn:E;
      [ apply Qeq_bool_iff in E | apply Qeq_bool_neq in E ]
  end;
  cbn [negb orb andb] in *.

Section Intersection.
Import shapely.
Variables (a b : rect).

Lemma intersection_disjoint :
  disjoint_boxes a b -> intersection a b = Empty.
Proof.
  unfold disjoint_boxes, intersection. intros H.
  coordinates; try reflexivity; exfalso; lra.
Qed.

Lemma intersection_overlapping :
  proper_box a -> proper_box b -> overlapping_boxes a b ->
  intersection a b = Polygon (intersection_box a b).
Proof.
  unfold proper_box, overlapping_boxes, intersection, intersection_box.
  intros Ha Hb H.
  coordinates; try reflexivity; exfalso; lra.
Qed.

(** Boxes that touch have a point or a segment in common, whose bounds
    are those of the intersection box. *)
Lemma intersection_touching :
  proper_box a -> proper_box b -> touching_boxes a b ->
  is_empty (intersection a b) = false
  /\ exists x0 y0 x1 y1 : Q,
       bounds (intersection a b)
       = VTuple [VNum x0; VNum y0; VNum x1; VNum y1]
       /\ (x0 == minx (intersection_box a b))%Q
       /\ (y0 == miny (intersection_box a b))%Q
       /\ (x1 == maxx (intersection_box a b))%Q
       /\ (y1 == maxy (intersection_box a b))%Q
       /\ ((x0 == x1)%Q \/ (y0 == y1)%Q).
Proof.
  unfold proper_box, touching_boxes, intersection, intersection_box.
  intros Ha Hb H. cbn [minx miny maxx maxy].
  coordinates; cbn [is_empty bounds];
    try (exfalso; lra);
    (split; [reflexivity|]);
    do 4 eexists; (split; [reflexivity|]);
    repeat split; try reflexivity; try lra.
Qed.
End Intersection.

Section InnerBoxes.
Import shapely.

Lemma box_extent_of (r : rect) : box (extent_of r) = Ok r.
Proof. destruct r. reflexivity. Qed.

(** With a box on both sides, the [inner] branch is the intersection of
    the two boxes: its bounds, or [None] when it is empty. *)
Lemma inner_extent_boxes (left right : dict) (a b : rect) :
  left !! "extent" = Some (extent_of a) ->
  right !! "extent" = Some (extent_of b) ->
  inner_extent left right
  = if is_empty (intersection a b)
    then Traced [call_box; call_box; call_intersection; call_is_empty]
                (Ok VNone)
    else Traced [call_box; call_box; call_intersection; call_is_empty;
                 call_bounds]
                (Ok (bounds (intersection a b))).
Proof.
  intros Hl Hr. unfold inner_extent, both_extents, boxes.
  rewrite (getitem_Some _ _ _ Hl), (getitem_Some _ _ _ Hr).
  cbn [result_bind extent_of truth length Nat.eqb negb]. run.
  fold (extent_of a). fold (extent_of b).
  rewrite box_extent_of. run. rewrite box_extent_of. run.
  cbn [fst snd]. destruct (is_empty (intersection a b)); reflexivity.
Qed.
End InnerBoxes.

(** C6: in extent mode with the join kind [inner], two boxes that have no
    point in common give no extent ([None]), and two boxes whose insides
    meet give the box of their common points. *)
Theorem process_inner_disjoint_or_overlapping
    (left right kwargs : dict) (a b : shapely.rect) (p : value) :
  kwargs !! "mode" = Some (VStr "extent") ->
  kwargs !! "how" = Some (VStr "inner") ->
  left !! "extent" = Some (extent_of a) ->
  right !! "extent" = Some (extent_of b) ->
  left !! "projection" = Some p ->
  proper_box a ->
  proper_box b ->
  (disjoint_boxes a b ->
   process left right kwargs
   = Traced [call_box; call_box; call_intersection; call_is_empty]
       (Ok (Some {[ "extent" := VNone; "projection" := p ]})))
  /\ (overlapping_boxes a b ->
      process left right kwargs
      = Traced [call_box; call_box; call_intersection; call_is_empty;
                call_bounds]
          (Ok (Some {[ "extent" := extent_of (intersection_box a b);
                       "projection" := p ]}))).
Proof.
  intros Hmode Hhow Hl Hr Hp Ha Hb.
  rewrite (process_inner _ _ _ p Hmode Hp Hhow).
  rewrite (inner_extent_boxes _ _ a b Hl Hr).
  split; intros H.
  - rewrite (intersection_disjoint a b H). reflexivity.
  - rewrite (intersection_overlapping a b Ha Hb H). reflexivity.
Qed.

(** Two boxes far apart, and two boxes that overlap in [(5, 5, 10, 10)]. *)
Lemma process_inner_sample_boxes :
  process (sample.extent_response 0 0 1 1 "EPSG:28992")
          (sample.extent_response 10 10 11 11 "EPSG:28992")
          (sample.kwargs "inner" "extent")
  = Traced [call_box; call_box; call_intersection; call_is_empty]
      (Ok (Some {[ "extent" := VNone; "projection" := VStr "EPSG:28992" ]}))
  /\ process (sample.extent_response 0 0 10 10 "EPSG:28992")
             (sample.extent_response 5 5 15 15 "EPSG:28992")
             (sample.kwargs "inner" "extent")
     = Traced [call_box; call_box; call_intersection; call_is_empty;
               call_bounds]
         (Ok (Some {[ "extent" := VTuple [VNum 5; VNum 5; VNum 10; VNum 10];
                      "projection" := VStr "EPSG:28992" ]})).
Proof.
  split.
  - apply (proj1 (process_inner_disjoint_or_overlapping
                    (sample.extent_response 0 0 1 1 "EPSG:28992")
                    (sample.extent_response 10 10 11 11 "EPSG:28992")
                    (sample.kwargs "inner" "extent")
                    (shapely.Rect 0 0 1 1) (shapely.Rect 10 10 11 11)
                    (VStr "EPSG:28992")
                    eq_refl eq_refl eq_refl eq_refl eq_refl
                    (conj eq_refl eq_refl) (conj eq_refl eq_refl))).
    left. reflexivity.
  - apply (proj2 (process_inner_disjoint_or_overlapping
                    (sample.extent_response 0 0 10 10 "EPSG:28992")
                    (sample.extent_response 5 5 15 15 "EPSG:28992")
                    (sample.kwargs "inner" "extent")
                    (shapely.Rect 0 0 10 10) (shapely.Rect 5 5 15 15)
                    (VStr "EPSG:28992")
                    eq_refl eq_refl eq_refl eq_refl eq_refl
                    (conj eq_refl eq_refl) (conj eq_refl eq_refl))).
    repeat split.
Defined.

(** C9: in extent mode with the join kind [inner], two boxes that touch
    only along an edge or at a corner give an extent, not [None]: the
    bounds of what they have in common, a box without area. *)
Theorem process_inner_touching_is_degenerate
    (left right kwargs : dict) (a b : shapely.rect) (p : value) :
  kwargs !! "mode" = Some (VStr "extent") ->
  kwargs !! "how" = Some (VStr "inner") ->
  left !! "extent" = Some (extent_of a) ->
  right !! "extent" = Some (extent_of b) ->
  left !! "projection" = Some p ->
  proper_box a ->
  proper_box b ->
  touching_boxes a b ->
  exists x0 y0 x1 y1 : Q,
    process left right kwargs
    = Traced [call_box; call_box; call_intersection; call_is_empty;
              call_bounds]
        (Ok (Some {[ "extent" := VTuple [VNum x0; VNum y0; VNum x1; VNum y1];
                     "projection" := p ]}))
    /\ (x0 == shapely.minx (intersection_box a b))%Q
    /\ (y0 == shapely.miny (intersection_box a b))%Q
    /\ (x1 == shapely.maxx (intersection_box a b))%Q
    /\ (y1 == shapely.maxy (intersection_box a b))%Q
    /\ ((x0 == x1)%Q \/ (y0 == y1)%Q).
Proof.
  intros Hmode Hhow Hl Hr Hp Ha Hb H.
  destruct (intersection_touching a b Ha Hb H)
    as (Hempty & x0 & y0 & x1 & y1 & Hbounds & Hbox).
  exists x0, y0, x1, y1. split; [|exact Hbox].
  rewrite (process_inner _ _ _ p Hmode Hp Hhow).
  rewrite (inner_extent_boxes _ _ a b Hl Hr).
  rewrite Hempty, Hbounds. reflexivity.
Qed.

(** Two boxes that share the edge [x = 10]. *)
Lemma process_inner_touching_sample :
  touching_boxes (shapely.Rect 0 0 10 10) (shapely.Rect 10 0 20 10)
  /\ (exists x0 y0 x1 y1 : Q,
        process (sample.extent_response 0 0 10 10 "EPSG:28992")
                (sample.extent_response 10 0 20 10 "EPSG:28992")
                (sample.kwargs "inner" "extent")
        = Traced [call_box; call_box; call_intersection; call_is_empty;
                  call_bounds]
            (Ok (Some {[ "extent" :=
                           VTuple [VNum x0; VNum y0; VNum x1; VNum y1];
                         "projection" := VStr "EPSG:28992" ]}))
        /\ (x0 == 10)%Q /\ (y0 == 0)%Q /\ (x1 == 10)%Q /\ (y1 == 10)%Q
        /\ ((x0 == x1)%Q \/ (y0 == y1)%Q))
  /\ process (sample.extent_response 0 0 10 10 "EPSG:28992")
             (sample.extent_response 10 0 20 10 "EPSG:28992")
             (sample.kwargs "inner" "extent")
     = Traced [call_box; call_box; call_intersection; call_is_empty;
               call_bounds]
         (Ok (Some {[ "extent" := VTuple [VNum 10; VNum 0; VNum 10; VNum 10];
                      "projection" := VStr "EPSG:28992" ]})).
Proof.
  assert (Htouch : touching_boxes (shapely.Rect 0 0 10 10)
                                  (shapely.Rect 10 0 20 10)).
  { split; [|left; reflexivity]. repeat split; discriminate. }
  split; [exact Htouch|]. split; [|vm_compute; reflexivity].
  exact (process_inner_touching_is_degenerate
           (sample.extent_response 0 0 10 10 "EPSG:28992")
           (sample.extent_response 10 0 20 10 "EPSG:28992")
           (sample.kwargs "inner" "extent")
           (shapely.Rect 0 0 10 10) (shapely.Rect 10 0 20 10)
           (VStr "EPSG:28992")
           eq_refl eq_refl eq_refl eq_refl eq_refl
           (conj eq_refl eq_refl) (conj eq_refl eq_refl) Htouch).
Defined.

(** ** Index labels of a merged table *)

Section JoinLabels.
Import pandas pd.
Variables (L R : DataFrame).








End JoinLabels.

(** ** Merging the features *)

Section MergeFeatures.
Import pandas.



(** Tables that share no column name keep their names, whatever the
    items of the suffixes. *)
Lemma label_columns_disjoint (L R : DataFrame) (items : list value) :
  (forall c, c ∈ columns L -> c ∉ columns R) ->
  pd.label_columns L R (VTuple items) = Ok (columns L ++ columns R).
Proof.
  intros Hnone. unfold pd.label_columns. cbn [pd.suffix_items result_bind].
  rewrite bool_decide_eq_true_2; [reflexivity|].
  apply elem_of_nil_inv. intros c Hc.
  apply list_elem_of_filter in Hc as [HcR HcL]. exact (Hnone c HcL HcR).
Qed.
End MergeFeatures.




(** * Further properties of the constructor and the schema *)

Section ConstructionOutcomes.
Lemma string_append_empty (s : string) : s +:+ "" = s.
Proof.
  induction s as [|c s IH]; [reflexivity|].
  change (String c (s +:+ "") = String c s). f_equal. exact IH.
Qed.

(** What [__init__] has checked when it returns a block. *)
Lemma init_returns (left right : argument) (how : string) (suffixes : value)
    (node : t) :
  __init__ left right how suffixes = Ok node ->
  exists l r,
    left = Block l /\ right = Block r
    /\ how ∈ allow_how_joins
    /\ node = Build l r how suffixes
    /\ ((exists a b, suffixes = VTuple [VStr a; VStr b])
        \/ (exists c d, suffixes = VStr (String c (String d "")))).
Proof.
  unfold __init__. destruct left as [l|v]; [|discriminate].
  destruct right as [r|v]; [|discriminate].
  case_bool_decide as Hhow; cbn [negb]; [|discriminate].
  intros H. exists l, r. do 3 (split; [done|]).
  destruct suffixes as [| s | q | items | df]; try discriminate H.
  - destruct s as [|c [|d [|e s]]]; try discriminate H.
    cbn in H. injection H as <-. split; [reflexivity|]. right. eauto.
  - destruct items as [|x0 [|x1 [|x2 rest]]]; try discriminate H.
    + destruct x0; discriminate H.
    + destruct x0; try discriminate H. destruct x1; try discriminate H.
      cbn in H. injection H as <-. split; [reflexivity|]. left. eauto.
    + destruct x0; try discriminate H. destruct x1; discriminate H.
Qed.

(** The two suffixes that a block accepted by [__init__] holds. *)
Lemma init_suffixes (left right : argument) (how : string) (suffixes : value)
    (node : t) :
  __init__ left right how suffixes = Ok node ->
  exists s0 s1,
    subscript (MergeGeometryBlocks.suffixes node) 0 = Ok (VStr s0)
    /\ subscript (MergeGeometryBlocks.suffixes node) 1 = Ok (VStr s1).
Proof.
  intros H.
  destruct (init_returns _ _ _ _ _ H)
    as (l & r & _ & _ & _ & -> & [(a & b & ->) | (c & d & ->)]);
    eexists _, _; split; reflexivity.
Qed.

Lemma columns_loop_suffixes (self : t) (s0 s1 : string) (cols : list string)
    (acc : gset string) :
  subscript (suffixes self) 0 = Ok (VStr s0) ->
  subscript (suffixes self) 1 = Ok (VStr s1) ->
  columns_loop self cols acc
  = Ok (acc ∪ list_to_set ((fun c => c +:+ s0) <$> cols)
            ∪ list_to_set ((fun c => c +:+ s1) <$> cols)).
Proof.
  intros H0 H1. revert acc.
  induction cols as [|col rest IH]; intros acc; cbn [columns_loop].
  - f_equal. cbn. set_solver.
  - rewrite H0, H1. cbn. rewrite IH. f_equal. set_solver.
Qed.

Lemma columns_with_suffixes (self : t) (s0 s1 : string) :
  subscript (suffixes self) 0 = Ok (VStr s0) ->
  subscript (suffixes self) 1 = Ok (VStr s1) ->
  columns self
  = Ok (columns_spec (GeometryBlock.columns (left self))
          (GeometryBlock.columns (right self)) s0 s1).
Proof.
  intros H0 H1. unfold columns.
  rewrite (columns_loop_suffixes _ s0 s1 _ _ H0 H1). reflexivity.
Qed.

Lemma size_list_to_set_le (l : list string) :
  size (list_to_set l : gset string) <= length l.
Proof.
  induction l as [|x l IH]; cbn [length].
  - rewrite list_to_set_nil, size_empty. lia.
  - rewrite list_to_set_cons, size_union_alt, size_singleton.
    pose proof (subseteq_size (list_to_set l ∖ {[x]}) (list_to_set l : gset string)) as Hle.
    assert (list_to_set l ∖ {[x]} ⊆ (list_to_set l : gset string)) by set_solver.
    specialize (Hle H). lia.
Qed.

Lemma size_set_map_le (f : string -> string) (X : gset string) :
  size (set_map f X : gset string) <= size X.
Proof.
  unfold set_map. etransitivity; [apply size_list_to_set_le|].
  rewrite length_fmap. reflexivity.
Qed.

Lemma size_columns_spec (L R : gset string) (s0 s1 : string) :
  size (columns_spec L R s0 s1) <= size L + size R.
Proof.
  unfold columns_spec.
  pose proof (size_set_map_le (fun c => c +:+ s0) (L ∩ R)) as H0.
  pose proof (size_set_map_le (fun c => c +:+ s1) (L ∩ R)) as H1.
  assert (HL : size L = size (L ∖ R) + size (L ∩ R)).
  { rewrite <- size_union by set_solver. f_equal. apply set_eq. intros x.
    rewrite elem_of_union, elem_of_difference, elem_of_intersection.
    destruct (decide (x ∈ R)); tauto. }
  assert (HR : size R = size (R ∖ L) + size (L ∩ R)).
  { rewrite <- size_union by set_solver. f_equal. apply set_eq. intros x.
    rewrite elem_of_union, elem_of_difference, elem_of_intersection.
    destruct (decide (x ∈ L)); tauto. }
  assert (Hsym : size ((L ∖ R) ∪ (R ∖ L)) = size (L ∖ R) + size (R ∖ L))
    by (apply size_union; set_solver).
  etransitivity.
  { rewrite size_union_alt. apply Nat.add_le_mono_l, subseteq_size.
    apply subseteq_difference_l. reflexivity. }
  etransitivity.
  { apply Nat.add_le_mono_r. rewrite size_union_alt.
    apply Nat.add_le_mono_l, subseteq_size, subseteq_difference_l.
    reflexivity. }
  lia.
Qed.
End ConstructionOutcomes.

(** X1: the constructor reports the first argument that is not a geometry
    block, [left] before [right], with the type error that names its type;
    [how] and [suffixes] are not looked at, valid or not. *)
Theorem init_reports_first_non_block :
  (forall (v : value) (right : argument) (how : string) (suffixes : value),
     __init__ (Other v) right how suffixes
     = Raise (TypeError ("'" +:+ type_str v +:+ "' object is not allowed")))
  /\ (forall (l : GeometryBlock.t) (v : value) (how : string)
        (suffixes : value),
        __init__ (Block l) (Other v) how suffixes
        = Raise (TypeError ("'" +:+ type_str v +:+ "' object is not allowed"))).
Proof. split; reflexivity. Qed.


(** X3: with two geometry blocks and an allowed join kind, a tuple of two
    or more items that is not a pair of texts is refused with the type
    error that names the tuple type. *)
Theorem init_refuses_tuple_that_is_no_pair_of_texts
    (l r : GeometryBlock.t) (how : string) (x0 x1 : value)
    (rest : list value) :
  how ∈ allow_how_joins ->
  isinstance_str x0 = false \/ isinstance_str x1 = false \/ rest <> [] ->
  __init__ (Block l) (Block r) how (VTuple (x0 :: x1 :: rest))
  = Raise (TypeError "'<class 'tuple'>' object is not allowed").
Proof.
  intros Hhow Hbad. unfold __init__.
  rewrite bool_decide_eq_true_2 by exact Hhow. cbn.
  destruct (isinstance_str x0); cbn; [|reflexivity].
  destruct (isinstance_str x1); cbn; [|reflexivity].
  destruct rest; [|reflexivity].
  destruct Hbad as [Hbad | [Hbad | Hbad]]; congruence.
Qed.

(** Three texts, and a text with [None]. *)
Lemma init_refuses_tuple_samples :
  __init__ (Block sample.left_block) (Block sample.right_block) "inner"
    (VTuple [VStr "a"; VStr "b"; VStr "c"])
  = Raise (TypeError "'<class 'tuple'>' object is not allowed")
  /\ __init__ (Block sample.left_block) (Block sample.right_block) "inner"
       (VTuple [VStr "a"; VNone])
     = Raise (TypeError "'<class 'tuple'>' object is not allowed").
Proof.
  split.
  - apply (init_refuses_tuple_that_is_no_pair_of_texts _ _ "inner"
             (VStr "a") (VStr "b") [VStr "c"] inner_is_allowed).
    right; right. discriminate.
  - apply (init_refuses_tuple_that_is_no_pair_of_texts _ _ "inner"
             (VStr "a") VNone [] inner_is_allowed).
    right; left. reflexivity.
Defined.

(** X4: [columns] never raises on a block that the constructor returned:
    it is the schema built with the two items of [suffixes], which for a
    text of two characters are its two characters. *)
Theorem columns_of_constructed_block
    (left right : argument) (how : string) (suffixes : value) (node : t) :
  __init__ left right how suffixes = Ok node ->
  exists s0 s1,
    subscript suffixes 0 = Ok (VStr s0)
    /\ subscript suffixes 1 = Ok (VStr s1)
    /\ columns node
       = Ok (columns_spec
               (GeometryBlock.columns (MergeGeometryBlocks.left node))
               (GeometryBlock.columns (MergeGeometryBlocks.right node))
               s0 s1).
Proof.
  intros H. destruct (init_suffixes _ _ _ _ _ H) as (s0 & s1 & H0 & H1).
  exists s0, s1.
  destruct (init_returns _ _ _ _ _ H) as (l & r & _ & _ & _ & -> & _).
  split; [exact H0|]. split; [exact H1|].
  apply columns_with_suffixes; assumption.
Qed.

(** The text [ab] as suffixes: the shared column [id] becomes [ida] and
    [idb]. *)
Lemma columns_of_constructed_block_two_characters :
  exists node,
    __init__ (Block sample.left_block) (Block sample.right_block) "inner"
      (VStr "ab") = Ok node
    /\ columns node = Ok {["area"; "name"; "ida"; "idb"]}.
Proof.
  assert (Hnode : __init__ (Block sample.left_block) (Block sample.right_block)
                    "inner" (VStr "ab")
                  = Ok (Build sample.left_block sample.right_block "inner"
                          (VStr "ab"))) by reflexivity.
  eexists. split; [exact Hnode|].
  destruct (columns_of_constructed_block _ _ _ _ _ Hnode)
    as (s0 & s1 & H0 & H1 & Hcols).
  rewrite Hcols. injection H0 as <-. injection H1 as <-.
  vm_compute. reflexivity.
Defined.

(** X5: when the two upstream blocks share no column name, the columns of
    the merge block are the names of both, whatever the suffixes. *)
Theorem columns_of_disjoint_sides
    (left right : argument) (how : string) (suffixes : value) (node : t) :
  __init__ left right how suffixes = Ok node ->
  GeometryBlock.columns (MergeGeometryBlocks.left node)
    ∩ GeometryBlock.columns (MergeGeometryBlocks.right node) = ∅ ->
  columns node
  = Ok (GeometryBlock.columns (MergeGeometryBlocks.left node)
          ∪ GeometryBlock.columns (MergeGeometryBlocks.right node)).
Proof.
  intros H Hdisjoint.
  destruct (init_suffixes _ _ _ _ _ H) as (s0 & s1 & H0 & H1).
  rewrite (columns_with_suffixes _ s0 s1 H0 H1). f_equal.
  apply set_eq. intros x. rewrite elem_of_columns_spec, elem_of_union.
  split.
  - intros [[Hx _] | [[Hx _] | (c & Hl & Hr & _)]]; [tauto | tauto |].
    exfalso. apply (not_elem_of_empty (C:=gset string) c).
    rewrite <- Hdisjoint. apply elem_of_intersection. tauto.
  - intros [Hx | Hx].
    + left. split; [exact Hx|]. intros Hr.
      apply (not_elem_of_empty (C:=gset string) x).
      rewrite <- Hdisjoint. apply elem_of_intersection. tauto.
    + right; left. split; [exact Hx|]. intros Hl.
      apply (not_elem_of_empty (C:=gset string) x).
      rewrite <- Hdisjoint. apply elem_of_intersection. tauto.
Qed.

(** Blocks with the columns [area] and [name], suffixes [_l] and [_r]. *)
Lemma columns_of_disjoint_sides_sample :
  columns (Build (GeometryBlock.Build {["area"]}) (GeometryBlock.Build {["name"]})
             "outer" (VTuple [VStr "_l"; VStr "_r"]))
  = Ok {["area"; "name"]}.
Proof.
  apply (columns_of_disjoint_sides
           (Block (GeometryBlock.Build {["area"]}))
           (Block (GeometryBlock.Build {["name"]}))
           "outer" (VTuple [VStr "_l"; VStr "_r"])).
  - reflexivity.
  - vm_compute. reflexivity.
Defined.

(** X6: with the default suffixes every column name of the left block is
    a column of the merge block; a name of the right block is one as it is
    when the left block does not have it, and with [_right] appended when
    it does; there are no other columns. *)
Theorem columns_with_default_suffixes
    (l r : GeometryBlock.t) (how : string) :
  how ∈ allow_how_joins ->
  let L := GeometryBlock.columns l in
  let R := GeometryBlock.columns r in
  exists node cols,
    __init__ (Block l) (Block r) how default_suffixes = Ok node
    /\ columns node = Ok cols
    /\ (forall c, c ∈ L -> c ∈ cols)
    /\ (forall c, c ∈ R -> c ∉ L -> c ∈ cols)
    /\ (forall c, c ∈ R -> c ∈ L -> c +:+ "_right" ∈ cols)
    /\ (forall x, x ∈ cols ->
          x ∈ L \/ x ∈ R
          \/ exists c, c ∈ L /\ c ∈ R /\ x = c +:+ "_right").
Proof.
  intros Hhow L R.
  exists (Build l r how default_suffixes), (columns_spec L R "" "_right").
  split; [apply init_pair_of_strings; exact Hhow|].
  split; [apply columns_closed_form|].
  repeat split.
  - intros c Hc. apply elem_of_columns_spec.
    destruct (decide (c ∈ R)) as [Hr|Hr]; [|tauto].
    right; right. exists c. rewrite string_append_empty. tauto.
  - intros c Hr Hl. apply elem_of_columns_spec. tauto.
  - intros c Hr Hl. apply elem_of_columns_spec. right; right. eauto.
  - intros x Hx. apply elem_of_columns_spec in Hx
      as [[Hx _] | [[Hx _] | (c & Hl & Hr & [-> | ->])]]; [tauto | tauto | |].
    + rewrite string_append_empty. tauto.
    + right; right. eauto.
Qed.

(** The left block's [id] and [area] stay; the right block's [id] becomes
    [id_right]. *)
Lemma columns_with_default_suffixes_sample :
  exists node cols,
    __init__ (Block sample.left_block) (Block sample.right_block) "inner"
      default_suffixes = Ok node
    /\ columns node = Ok cols
    /\ "id" ∈ cols /\ "area" ∈ cols /\ "name" ∈ cols /\ "id_right" ∈ cols.
Proof.
  destruct (columns_with_default_suffixes sample.left_block
              sample.right_block "inner" inner_is_allowed)
    as (node & cols & Hnode & Hcols & Hleft & Hright & Hboth & _).
  exists node, cols. split; [exact Hnode|]. split; [exact Hcols|].
  split; [apply Hleft; vm_compute; reflexivity|].
  split; [apply Hleft; vm_compute; reflexivity|].
  split; [apply Hright; vm_compute; [reflexivity|discriminate]|].
  apply (Hboth "id"); vm_compute; reflexivity.
Defined.

(** X7: a merge block never has more columns than its two upstream blocks
    together. *)
Theorem columns_size_bound
    (left right : argument) (how : string) (suffixes : value) (node : t) :
  __init__ left right how suffixes = Ok node ->
  exists cols,
    columns node = Ok cols
    /\ size cols
       <= size (GeometryBlock.columns (MergeGeometryBlocks.left node))
          + size (GeometryBlock.columns (MergeGeometryBlocks.right node)).
Proof.
  intros H. destruct (init_suffixes _ _ _ _ _ H) as (s0 & s1 & H0 & H1).
  eexists. split; [apply (columns_with_suffixes _ s0 s1 H0 H1)|].
  apply size_columns_spec.
Qed.

(** Two blocks with two columns each: at most four columns. *)
Lemma columns_size_bound_sample :
  exists cols,
    columns (Build sample.left_block sample.right_block "inner"
               default_suffixes) = Ok cols
    /\ size cols <= 4.
Proof.
  exact (columns_size_bound (Block sample.left_block)
           (Block sample.right_block) "inner" default_suffixes _ eq_refl).
Defined.

(** * Further properties of the request fan-out and the combination step *)

Section Lookups.
Lemma getitem_None (d : dict) (k : string) :
  d !! k = None -> getitem d k = Raise (KeyError ("'" +:+ k +:+ "'")).
Proof. intros H. unfold getitem. rewrite H. reflexivity. Qed.

Lemma traced_bind_pure_raise {A B : Type} (e : exn) (f : A -> traced B) :
  traced_bind (pure (Raise e)) f = Traced [] (Raise e).
Proof. reflexivity. Qed.

(** The keyword bundle that [get_sources_and_requests] builds. *)
Lemma process_kwargs_lookup (how_v suffixes_v mode_v : value) :
  let kwargs : dict :=
    {[ "how" := how_v; "suffixes" := suffixes_v; "mode" := mode_v ]} in
  kwargs !! "how" = Some how_v
  /\ kwargs !! "suffixes" = Some suffixes_v
  /\ kwargs !! "mode" = Some mode_v
  /\ dom kwargs = ({["how"; "suffixes"; "mode"]} : gset string).
Proof.
  cbn zeta. split; [reflexivity|]. split; [reflexivity|].
  split; [reflexivity|].
  rewrite !dom_insert_L, dom_singleton_L. set_solver.
Qed.
End Lookups.

(** X8: the fan-out needs only the [mode] of the request. Without one it
    raises [KeyError]; with one it hands the request as it is to the left
    and to the right block, and to [process] a bundle of exactly [how],
    [suffixes] and [mode]: no other key of the request reaches [process]. *)
Theorem get_sources_and_requests_outcome (self : t) (request : dict) :
  (request !! "mode" = None ->
   get_sources_and_requests self request = Raise (KeyError "'mode'"))
  /\ (forall mode : value,
        request !! "mode" = Some mode ->
        exists kwargs : dict,
          get_sources_and_requests self request
          = Ok ((left self, request), (right self, request), kwargs)
          /\ kwargs !! "how" = Some (VStr (how self))
          /\ kwargs !! "suffixes" = Some (suffixes self)
          /\ kwargs !! "mode" = Some mode
          /\ dom kwargs = {["how"; "suffixes"; "mode"]}).
Proof.
  split.
  - intros Hmode. unfold get_sources_and_requests.
    rewrite (getitem_None _ _ Hmode). reflexivity.
  - intros mode Hmode. unfold get_sources_and_requests.
    rewrite (getitem_Some _ _ _ Hmode). cbn [result_bind].
    eexists. split; [reflexivity|].
    apply (process_kwargs_lookup (VStr (how self)) (suffixes self) mode).
Qed.

(** X9: [process] first reads [mode] and [how] of the keyword bundle and
    the projection of the left response, in this order, whatever the mode
    and the join kind: the first one that is missing is a [KeyError], and no
    engine is called. *)
Theorem process_missing_key (left right kwargs : dict) :
  (kwargs !! "mode" = None ->
   process left right kwargs = Traced [] (Raise (KeyError "'mode'")))
  /\ (is_Some (kwargs !! "mode") ->
      kwargs !! "how" = None ->
      process left right kwargs = Traced [] (Raise (KeyError "'how'")))
  /\ (is_Some (kwargs !! "mode") ->
      is_Some (kwargs !! "how") ->
      left !! "projection" = None ->
      process left right kwargs
      = Traced [] (Raise (KeyError "'projection'"))).
Proof.
  unfold process. repeat split.
  - intros Hmode. rewrite (getitem_None _ _ Hmode). reflexivity.
  - intros [mode Hmode] Hhow.
    rewrite (getitem_Some _ _ _ Hmode), (getitem_None _ _ Hhow). run.
    reflexivity.
  - intros [mode Hmode] [how Hhow] Hp.
    rewrite (getitem_Some _ _ _ Hmode), (getitem_Some _ _ _ Hhow),
      (getitem_None _ _ Hp). run. reflexivity.
Qed.

(** A left pass-through in extent mode still needs the projection of the
    left response. *)
Lemma process_missing_key_sample :
  process sample.extent_only_response sample.wgs_right
          (sample.kwargs "right" "extent")
  = Traced [] (Raise (KeyError "'projection'")).
Proof.
  apply (proj2 (proj2 (process_missing_key sample.extent_only_response
                         sample.wgs_right (sample.kwargs "right" "extent")))).
  - eexists. reflexivity.
  - eexists. reflexivity.
  - reflexivity.
Defined.

(** X10: in extent mode the join kinds [left] and [right] pass one
    response through: the result is the left, respectively the right,
    response itself, no engine is called and the other response is not
    read at all. Only the projection of the left response has to be there. *)
Theorem process_extent_pass_through
    (left right kwargs : dict) (p : value) :
  kwargs !! "mode" = Some (VStr "extent") ->
  left !! "projection" = Some p ->
  (kwargs !! "how" = Some (VStr "left") ->
   process left right kwargs = Traced [] (Ok (Some left)))
  /\ (kwargs !! "how" = Some (VStr "right") ->
      process left right kwargs = Traced [] (Ok (Some right))).
Proof.
  intros Hmode Hp. split; intros Hhow; unfold process;
    rewrite (getitem_Some _ _ _ Hmode), (getitem_Some _ _ _ Hhow),
      (getitem_Some _ _ _ Hp);
    run; compare_texts; run; reflexivity.
Qed.

(** The left response comes back with [left]; with [right] the result is
    the right response, here an empty mapping. *)
Lemma process_extent_pass_through_sample :
  process sample.rd_left ∅ (sample.kwargs "left" "extent")
  = Traced [] (Ok (Some sample.rd_left))
  /\ process sample.rd_left ∅ (sample.kwargs "right" "extent")
     = Traced [] (Ok (Some ∅)).
Proof.
  split.
  - apply (proj1 (process_extent_pass_through sample.rd_left ∅
                    (sample.kwargs "left" "extent") (VStr "EPSG:28992")
                    eq_refl eq_refl)).
    reflexivity.
  - apply (proj2 (process_extent_pass_through sample.rd_left ∅
                    (sample.kwargs "right" "extent") (VStr "EPSG:28992")
                    eq_refl eq_refl)).
    reflexivity.
Defined.

(** X11: [process] does not check the join kind itself. In extent mode a
    join kind that is none of the four takes no branch: [None] is returned
    and no engine is called. *)
Theorem process_extent_unknown_how_returns_none
    (left right kwargs : dict) (how p : value) :
  kwargs !! "mode" = Some (VStr "extent") ->
  kwargs !! "how" = Some how ->
  left !! "projection" = Some p ->
  (forall df, how <> VFrame df) ->
  how <> VStr "left" ->
  how <> VStr "right" ->
  how <> VStr "inner" ->
  how <> VStr "outer" ->
  process left right kwargs = Traced [] (Ok None).
Proof.
  intros Hmode Hhow Hp Hframe Hl Hr Hi Ho. unfold process.
  rewrite (getitem_Some _ _ _ Hmode), (getitem_Some _ _ _ Hhow),
    (getitem_Some _ _ _ Hp).
  run. compare_texts. run.
  rewrite (eq_str_false _ _ Hframe Hl). run.
  rewrite (eq_str_false _ _ Hframe Hr). run.
  rewrite (eq_str_false _ _ Hframe Hi). run.
  rewrite (eq_str_false _ _ Hframe Ho). run. reflexivity.
Qed.

(** The join kind [cross]. *)
Lemma process_extent_unknown_how_sample :
  process sample.rd_left sample.wgs_right (sample.kwargs "cross" "extent")
  = Traced [] (Ok None).
Proof.
  apply (process_extent_unknown_how_returns_none _ _ _
           (VStr "cross") (VStr "EPSG:28992"));
    try reflexivity; discriminate.
Defined.

(** X12: a response that [process] returns is the left response, the
    right response, or a mapping with exactly two keys, [features] or
    [extent] and [projection]: the other keys of the two responses are
    dropped. *)
Theorem process_response_keys (left right kwargs resp : dict) :
  outcome (process left right kwargs) = Ok (Some resp) ->
  resp = left \/ resp = right
  \/ dom resp = ({["features"; "projection"]} : gset string)
  \/ dom resp = ({["extent"; "projection"]} : gset string).
Proof.
  intros H.
  destruct (process_returns _ _ _ _ H)
    as (mode & how & p & _ & _ & _ & Hcases).
  destruct Hcases as [[_ [merged ->]]|[_ [[_ ->]|[[_ ->]|[_ [values ->]]]]]].
  - right; right; left. rewrite dom_insert_L, dom_singleton_L. reflexivity.
  - left. reflexivity.
  - right; left. reflexivity.
  - right; right; right. rewrite dom_insert_L, dom_singleton_L. reflexivity.
Qed.

(** The [inner] extent of two responses that carry a key [source] each:
    the result has the keys [extent] and [projection] only. *)
Lemma process_response_keys_sample :
  outcome (process (<["source" := VStr "a"]> sample.rd_left)
             (<["source" := VStr "b"]> sample.wgs_right)
             (sample.kwargs "inner" "extent"))
  = Ok (Some (sample.extent_response 5 5 10 10 "EPSG:28992"))
  /\ dom (sample.extent_response 5 5 10 10 "EPSG:28992")
     = ({["extent"; "projection"]} : gset string).
Proof.
  assert (Hrun : outcome (process (<["source" := VStr "a"]> sample.rd_left)
                            (<["source" := VStr "b"]> sample.wgs_right)
                            (sample.kwargs "inner" "extent"))
                 = Ok (Some (sample.extent_response 5 5 10 10 "EPSG:28992")))
    by (vm_compute; reflexivity).
  split; [exact Hrun|].
  destruct (process_response_keys _ _ _ _ Hrun) as [Hl | [Hr | [Hd | Hd]]].
  - apply (f_equal (fun d : dict => d !! "source")) in Hl.
    vm_compute in Hl. discriminate Hl.
  - apply (f_equal (fun d : dict => d !! "source")) in Hr.
    vm_compute in Hr. discriminate Hr.
  - assert (Hin : "features" ∈ dom (sample.extent_response 5 5 10 10
                                     "EPSG:28992"))
      by (rewrite Hd; set_solver).
    apply elem_of_dom in Hin as [v Hv]. vm_compute in Hv. discriminate Hv.
  - exact Hd.
Defined.

(** * Further properties of extents *)

Section MoreExtents.
Import shapely.

Lemma truth_extent_of (r : rect) : truth (extent_of r) = Ok true.
Proof. reflexivity. Qed.

(** With a box on both sides, the [outer] branch is the bounds of the
    union of the two boxes. *)
Lemma outer_extent_boxes (left right : dict) (a b : rect) :
  left !! "extent" = Some (extent_of a) ->
  right !! "extent" = Some (extent_of b) ->
  outer_extent left right
  = Traced [call_box; call_box; call_union; call_bounds]
      (Ok (extent_of (covering_box a b))).
Proof.
  intros Hl Hr. unfold outer_extent, both_extents, boxes.
  rewrite (getitem_Some _ _ _ Hl), (getitem_Some _ _ _ Hr).
  cbn [result_bind extent_of truth length Nat.eqb negb]. run.
  fold (extent_of a). fold (extent_of b).
  rewrite box_extent_of. run. rewrite box_extent_of. run.
  reflexivity.
Qed.

Lemma covering_box_covers (a b : rect) :
  box_within a (covering_box a b) /\ box_within b (covering_box a b).
Proof.
  unfold box_within, covering_box. cbn [minx miny maxx maxy].
  coordinates; repeat split; lra.
Qed.

Lemma qmax_bounds (u v : Q) : (u <= qmax u v)%Q /\ (v <= qmax u v)%Q.
Proof. coordinates; split; lra. Qed.

Lemma qmin_bounds (u v : Q) : (qmin u v <= u)%Q /\ (qmin u v <= v)%Q.
Proof. coordinates; split; lra. Qed.

(** What two boxes have in common, when it is something, has the bounds
    of a box that lies within both. *)
Lemma bounds_intersection (a b : rect) :
  is_empty (intersection a b) = false ->
  exists r, bounds (intersection a b) = extent_of r
            /\ box_within r a /\ box_within r b.
Proof.
  unfold intersection, box_within.
  destruct (qmax_bounds (minx a) (minx b)) as [Hx0a Hx0b].
  destruct (qmax_bounds (miny a) (miny b)) as [Hy0a Hy0b].
  destruct (qmin_bounds (maxx a) (maxx b)) as [Hx1a Hx1b].
  destruct (qmin_bounds (maxy a) (maxy b)) as [Hy1a Hy1b].
  generalize dependent (qmax (minx a) (minx b)). intros x0.
  generalize dependent (qmax (miny a) (miny b)). intros y0.
  generalize dependent (qmin (maxx a) (maxx b)). intros x1.
  generalize dependent (qmin (maxy a) (maxy b)). intros y1.
  intros Hy1a Hy1b Hx1a Hx1b Hy0a Hy0b Hx0a Hx0b. cbn zeta.
  destruct (Qle_bool x0 x1) eqn:Ex; [|discriminate].
  destruct (Qle_bool y0 y1) eqn:Ey; [|discriminate].
  apply Qle_bool_iff in Ex, Ey. cbn [negb orb].
  destruct (Qeq_bool x0 x1 && Qeq_bool y0 y1);
    [|destruct (Qeq_bool x0 x1 || Qeq_bool y0 y1)];
    intros _; cbn [bounds];
    eexists (Rect _ _ _ _); (split; [reflexivity|]);
    cbn [minx miny maxx maxy]; repeat split; lra.
Qed.

(** The branches [inner] and [outer] when one of the extents is false. *)
Lemma inner_extent_falsy (left right : dict) (le re : value) (bl br : bool) :
  left !! "extent" = Some le ->
  right !! "extent" = Some re ->
  truth le = Ok bl ->
  truth re = Ok br ->
  bl && br = false ->
  inner_extent left right = Traced [] (Ok VNone).
Proof.
  intros Hle Hre Hl Hr Hfalse. unfold inner_extent.
  rewrite (both_extents_truth _ _ _ _ Hle Hre), Hl, Hr.
  destruct bl, br; try discriminate Hfalse; reflexivity.
Qed.

Lemma outer_extent_falsy (left right : dict) (le re : value) (bl br : bool) :
  left !! "extent" = Some le ->
  right !! "extent" = Some re ->
  truth le = Ok bl ->
  truth re = Ok br ->
  bl && br = false ->
  outer_extent left right
  = Traced [] (Ok (if bl then le else if br then re else VNone)).
Proof.
  intros Hle Hre Hl Hr Hfalse. unfold outer_extent.
  rewrite (both_extents_truth _ _ _ _ Hle Hre), Hl, Hr,
    (getitem_Some _ _ _ Hle), (getitem_Some _ _ _ Hre).
  destruct bl, br; try discriminate Hfalse; cbn [result_bind];
    run; rewrite ?Hl; run; rewrite ?Hr; run; reflexivity.
Qed.
End MoreExtents.

(** X13: in extent mode an extent counts as absent whenever it is false,
    not only when it is [None]: the empty tuple is one. If one of the two
    extents is false, [inner] answers [None]; [outer] answers the left
    extent if it is true, else the right one if it is true, else [None],
    never the false value itself. No engine is called. *)
Theorem process_extent_false_is_absent
    (left right kwargs : dict) (le re p : value) (bl br : bool) :
  kwargs !! "mode" = Some (VStr "extent") ->
  left !! "extent" = Some le ->
  right !! "extent" = Some re ->
  left !! "projection" = Some p ->
  truth le = Ok bl ->
  truth re = Ok br ->
  bl && br = false ->
  (kwargs !! "how" = Some (VStr "inner") ->
   process left right kwargs
   = Traced [] (Ok (Some {[ "extent" := VNone; "projection" := p ]})))
  /\ (kwargs !! "how" = Some (VStr "outer") ->
      process left right kwargs
      = Traced []
          (Ok (Some {[ "extent" :=
                         if bl then le else if br then re else VNone;
                       "projection" := p ]}))).
Proof.
  intros Hmode Hle Hre Hp Hl Hr Hfalse. split; intros Hhow.
  - rewrite (process_inner _ _ _ p Hmode Hp Hhow).
    rewrite (inner_extent_falsy _ _ le re bl br Hle Hre Hl Hr Hfalse).
    reflexivity.
  - rewrite (process_outer _ _ _ p Hmode Hp Hhow).
    rewrite (outer_extent_falsy _ _ le re bl br Hle Hre Hl Hr Hfalse).
    reflexivity.
Qed.

(** Two empty tuples: [outer] answers [None], not the empty tuple. *)
Lemma process_extent_false_is_absent_sample :
  process (sample.empty_extent_response "EPSG:28992")
          (sample.empty_extent_response "EPSG:28992")
          (sample.kwargs "outer" "extent")
  = Traced [] (Ok (Some {[ "extent" := VNone;
                           "projection" := VStr "EPSG:28992" ]})).
Proof.
  apply (proj2 (process_extent_false_is_absent
                  (sample.empty_extent_response "EPSG:28992")
                  (sample.empty_extent_response "EPSG:28992")
                  (sample.kwargs "outer" "extent")
                  (VTuple []) (VTuple []) (VStr "EPSG:28992") false false
                  eq_refl eq_refl eq_refl eq_refl eq_refl eq_refl eq_refl)).
  reflexivity.
Defined.

(** X14: the right extent is read only when it is needed. When the left
    extent is false and the right response has no key [extent], [inner]
    still answers [None], while [outer] raises [KeyError]. *)
Theorem process_extent_right_read_lazily
    (left right kwargs : dict) (le p : value) :
  kwargs !! "mode" = Some (VStr "extent") ->
  left !! "extent" = Some le ->
  truth le = Ok false ->
  right !! "extent" = None ->
  left !! "projection" = Some p ->
  (kwargs !! "how" = Some (VStr "inner") ->
   process left right kwargs
   = Traced [] (Ok (Some {[ "extent" := VNone; "projection" := p ]})))
  /\ (kwargs !! "how" = Some (VStr "outer") ->
      process left right kwargs = Traced [] (Raise (KeyError "'extent'"))).
Proof.
  intros Hmode Hle Hl Hre Hp. split; intros Hhow.
  - rewrite (process_inner _ _ _ p Hmode Hp Hhow).
    unfold inner_extent, both_extents.
    rewrite (getitem_Some _ _ _ Hle). cbn [result_bind]. rewrite Hl.
    reflexivity.
  - rewrite (process_outer _ _ _ p Hmode Hp Hhow).
    unfold outer_extent, both_extents.
    rewrite (getitem_Some _ _ _ Hle), (getitem_None _ _ Hre).
    cbn [result_bind]. rewrite Hl. cbn [result_bind]. run.
    rewrite Hl. run. reflexivity.
Qed.

(** A left response without extent and a right response that holds a
    projection only. *)
Lemma process_extent_right_read_lazily_sample :
  process (sample.no_extent_response "EPSG:28992")
          (sample.projection_response "EPSG:28992")
          (sample.kwargs "inner" "extent")
  = Traced [] (Ok (Some {[ "extent" := VNone;
                           "projection" := VStr "EPSG:28992" ]}))
  /\ process (sample.no_extent_response "EPSG:28992")
             (sample.projection_response "EPSG:28992")
             (sample.kwargs "outer" "extent")
     = Traced [] (Raise (KeyError "'extent'")).
Proof.
  split.
  - apply (proj1 (process_extent_right_read_lazily
                    (sample.no_extent_response "EPSG:28992")
                    (sample.projection_response "EPSG:28992")
                    (sample.kwargs "inner" "extent") VNone (VStr "EPSG:28992")
                    eq_refl eq_refl eq_refl eq_refl eq_refl)).
    reflexivity.
  - apply (proj2 (process_extent_right_read_lazily
                    (sample.no_extent_response "EPSG:28992")
                    (sample.projection_response "EPSG:28992")
                    (sample.kwargs "outer" "extent") VNone (VStr "EPSG:28992")
                    eq_refl eq_refl eq_refl eq_refl eq_refl)).
    reflexivity.
Defined.

(** X15: in extent mode with the join kind [outer] and a box on both
    sides, the result is the bounds of the union of the two boxes: the
    box from the smaller of the lower corners to the larger of the upper
    corners, which covers both boxes. The projection is the left one. *)
Theorem process_outer_covers_both_boxes
    (left right kwargs : dict) (a b : shapely.rect) (p : value) :
  kwargs !! "mode" = Some (VStr "extent") ->
  kwargs !! "how" = Some (VStr "outer") ->
  left !! "extent" = Some (extent_of a) ->
  right !! "extent" = Some (extent_of b) ->
  left !! "projection" = Some p ->
  proper_box a ->
  proper_box b ->
  process left right kwargs
  = Traced [call_box; call_box; call_union; call_bounds]
      (Ok (Some {[ "extent" := extent_of (covering_box a b);
                   "projection" := p ]}))
  /\ box_within a (covering_box a b)
  /\ box_within b (covering_box a b).
Proof.
  intros Hmode Hhow Hl Hr Hp _ _. split; [|apply covering_box_covers].
  rewrite (process_outer _ _ _ p Hmode Hp Hhow).
  rewrite (outer_extent_boxes _ _ a b Hl Hr). reflexivity.
Qed.

(** The boxes [(0, 0, 10, 10)] and [(5, 5, 15, 15)] give
    [(0, 0, 15, 15)]. *)
Lemma process_outer_covers_both_boxes_sample :
  process sample.rd_left sample.wgs_right (sample.kwargs "outer" "extent")
  = Traced [call_box; call_box; call_union; call_bounds]
      (Ok (Some {[ "extent" := VTuple [VNum 0; VNum 0; VNum 15; VNum 15];
                   "projection" := VStr "EPSG:28992" ]})).
Proof.
  exact (proj1 (process_outer_covers_both_boxes
                  sample.rd_left sample.wgs_right
                  (sample.kwargs "outer" "extent")
                  (shapely.Rect 0 0 10 10) (shapely.Rect 5 5 15 15)
                  (VStr "EPSG:28992")
                  eq_refl eq_refl eq_refl eq_refl eq_refl
                  (conj eq_refl eq_refl) (conj eq_refl eq_refl))).
Defined.

(** X16: in extent mode with the join kind [inner] and a box on both
    sides, an extent that is returned lies within both boxes. *)
Theorem process_inner_extent_within_both
    (left right kwargs : dict) (a b : shapely.rect) (p : value) :
  kwargs !! "mode" = Some (VStr "extent") ->
  kwargs !! "how" = Some (VStr "inner") ->
  left !! "extent" = Some (extent_of a) ->
  right !! "extent" = Some (extent_of b) ->
  left !! "projection" = Some p ->
  proper_box a ->
  proper_box b ->
  exists values : value,
    outcome (process left right kwargs)
    = Ok (Some {[ "extent" := values; "projection" := p ]})
    /\ (values = VNone
        \/ exists r, values = extent_of r
                     /\ box_within r a /\ box_within r b).
Proof.
  intros Hmode Hhow Hl Hr Hp _ _.
  rewrite (process_inner _ _ _ p Hmode Hp Hhow).
  rewrite (inner_extent_boxes _ _ a b Hl Hr).
  destruct (shapely.is_empty (shapely.intersection a b)) eqn:Hempty.
  - exists VNone. split; [reflexivity | left; reflexivity].
  - exists (shapely.bounds (shapely.intersection a b)).
    split; [reflexivity|]. right. apply bounds_intersection. exact Hempty.
Qed.

(** The boxes [(0, 0, 10, 10)] and [(5, 5, 15, 15)]. *)
Lemma process_inner_extent_within_both_sample :
  exists values : value,
    outcome (process sample.rd_left sample.wgs_right
               (sample.kwargs "inner" "extent"))
    = Ok (Some {[ "extent" := values; "projection" := VStr "EPSG:28992" ]})
    /\ (values = VNone
        \/ exists r, values = extent_of r
                     /\ box_within r (shapely.Rect 0 0 10 10)
                     /\ box_within r (shapely.Rect 5 5 15 15)).
Proof.
  exact (process_inner_extent_within_both
           sample.rd_left sample.wgs_right (sample.kwargs "inner" "extent")
           (shapely.Rect 0 0 10 10) (shapely.Rect 5 5 15 15)
           (VStr "EPSG:28992")
           eq_refl eq_refl eq_refl eq_refl eq_refl
           (conj eq_refl eq_refl) (conj eq_refl eq_refl)).
Defined.

(** * Further properties of the merged features and of the whole block *)

Section TableMode.
Import pandas.



End TableMode.

(** X17: in the modes [intersects] and [centroid] both responses must
    hold [features]: when the left one, or else the right one, does not,
    [process] raises [KeyError] and the table engine is not called. *)
Theorem process_missing_features
    (left right kwargs : dict) (mode : string) (how p : value) :
  kwargs !! "mode" = Some (VStr mode) ->
  mode = "intersects" \/ mode = "centroid" ->
  kwargs !! "how" = Some how ->
  left !! "projection" = Some p ->
  (left !! "features" = None ->
   process left right kwargs = Traced [] (Raise (KeyError "'features'")))
  /\ (is_Some (left !! "features") ->
      right !! "features" = None ->
      process left right kwargs = Traced [] (Raise (KeyError "'features'"))).
Proof.
  intros Hmode Htable Hhow Hp. unfold process.
  rewrite (getitem_Some _ _ _ Hmode), (getitem_Some _ _ _ Hhow),
    (getitem_Some _ _ _ Hp).
  split.
  - intros Hl. rewrite (getitem_None _ _ Hl).
    destruct Htable as [-> | ->]; run; compare_texts; run; reflexivity.
  - intros [lf Hl] Hr. rewrite (getitem_Some _ _ _ Hl), (getitem_None _ _ Hr).
    destruct Htable as [-> | ->]; run; compare_texts; run; reflexivity.
Qed.

(** An extent response where a features response is expected. *)
Lemma process_missing_features_sample :
  process (sample.features_response sample.left_table "EPSG:28992")
          sample.wgs_right (sample.kwargs "inner" "centroid")
  = Traced [] (Raise (KeyError "'features'")).
Proof.
  apply (proj2 (process_missing_features
                  (sample.features_response sample.left_table "EPSG:28992")
                  sample.wgs_right (sample.kwargs "inner" "centroid")
                  "centroid" (VStr "inner") (VStr "EPSG:28992")
                  eq_refl (or_intror eq_refl) eq_refl eq_refl)).
  - eexists. reflexivity.
  - reflexivity.
Defined.



Section ExtentResponses.
Import shapely.

Lemma proper_box_flat_or_proper (r : rect) :
  proper_box r -> flat_or_proper_box r.
Proof.
  unfold proper_box, flat_or_proper_box. intros [Hx Hy].
  split; apply Qlt_le_weak; assumption.
Qed.

Lemma extent_response_shape_built (values p : value) :
  values = VNone \/ (exists r, flat_or_proper_box r /\ values = extent_of r) ->
  extent_response_shape {[ "extent" := values; "projection" := p ]}.
Proof.
  intros Hvalues. split.
  - exists values. split; [apply lookup_insert_eq | exact Hvalues].
  - exists p. rewrite lookup_insert_ne by discriminate.
    apply lookup_singleton_eq.
Qed.

Lemma extent_response_ok_shape (resp : dict) :
  extent_response_ok resp -> extent_response_shape resp.
Proof.
  intros [(e & He & Hok) Hp]. split; [|exact Hp].
  exists e. split; [exact He|].
  destruct Hok as [-> | (r & Hr & ->)]; [left; reflexivity|].
  right. exists r. split; [apply proper_box_flat_or_proper; exact Hr|].
  reflexivity.
Qed.

(** What two boxes have in common, when it is something, has the bounds
    of a box, which may have no inside. *)
Lemma bounds_intersection_shape (a b : rect) :
  is_empty (intersection a b) = false ->
  exists r, flat_or_proper_box r /\ bounds (intersection a b) = extent_of r.
Proof.
  unfold intersection, flat_or_proper_box.
  generalize (qmax (minx a) (minx b)). intros x0.
  generalize (qmax (miny a) (miny b)). intros y0.
  generalize (qmin (maxx a) (maxx b)). intros x1.
  generalize (qmin (maxy a) (maxy b)). intros y1. cbn zeta.
  destruct (Qle_bool x0 x1) eqn:Ex; [|discriminate].
  destruct (Qle_bool y0 y1) eqn:Ey; [|discriminate].
  apply Qle_bool_iff in Ex, Ey. cbn [negb orb].
  destruct (Qeq_bool x0 x1 && Qeq_bool y0 y1);
    [|destruct (Qeq_bool x0 x1 || Qeq_bool y0 y1)];
    intros _; cbn [bounds];
    eexists (Rect _ _ _ _); (split; [|reflexivity]);
    cbn [minx miny maxx maxy]; split; lra.
Qed.

Lemma covering_box_proper (a b : rect) :
  proper_box a -> proper_box b -> flat_or_proper_box (covering_box a b).
Proof.
  unfold proper_box, flat_or_proper_box, covering_box.
  cbn [minx miny maxx maxy]. intros Ha Hb.
  coordinates; split; lra.
Qed.

(** The values that the branches [inner] and [outer] compute from two
    extents that are [None] or a box with an inside. *)
Lemma inner_extent_ok (left right : dict) (le re : value) :
  left !! "extent" = Some le ->
  right !! "extent" = Some re ->
  le = VNone \/ (exists a, proper_box a /\ le = extent_of a) ->
  re = VNone \/ (exists b, proper_box b /\ re = extent_of b) ->
  exists values,
    outcome (inner_extent left right) = Ok values
    /\ (values = VNone
        \/ exists r, flat_or_proper_box r /\ values = extent_of r).
Proof.
  intros Hle Hre [Hl | (a & Ha & Hl)] [Hr | (b & Hb & Hr)].
  - rewrite (inner_extent_absent _ _ le re Hle Hre); eauto.
  - rewrite (inner_extent_absent _ _ le re Hle Hre); eauto.
  - rewrite (inner_extent_absent _ _ le re Hle Hre); eauto.
    right. rewrite Hl. reflexivity.
  - subst le re. rewrite (inner_extent_boxes _ _ a b Hle Hre).
    destruct (is_empty (intersection a b)) eqn:Hempty.
    + exists VNone. split; [reflexivity | left; reflexivity].
    + destruct (bounds_intersection_shape a b Hempty) as (r & Hr & Hbounds).
      exists (extent_of r). rewrite Hbounds. eauto.
Qed.

Lemma outer_extent_ok (left right : dict) (le re : value) :
  left !! "extent" = Some le ->
  right !! "extent" = Some re ->
  le = VNone \/ (exists a, proper_box a /\ le = extent_of a) ->
  re = VNone \/ (exists b, proper_box b /\ re = extent_of b) ->
  exists values,
    outcome (outer_extent left right) = Ok values
    /\ (values = VNone
        \/ exists r, flat_or_proper_box r /\ values = extent_of r).
Proof.
  intros Hle Hre [Hl | (a & Ha & Hl)] [Hr | (b & Hb & Hr)].
  - rewrite (outer_extent_left_absent _ _ le re Hle Hre Hl); eauto.
  - rewrite (outer_extent_left_absent _ _ le re Hle Hre Hl);
      [|right; rewrite Hr; reflexivity].
    exists re. split; [reflexivity|]. right. exists b.
    split; [apply proper_box_flat_or_proper; exact Hb | exact Hr].
  - rewrite (outer_extent_right_absent _ _ le re Hle Hre);
      [|rewrite Hl; reflexivity | exact Hr].
    exists le. split; [reflexivity|]. right. exists a.
    split; [apply proper_box_flat_or_proper; exact Ha | exact Hl].
  - subst le re. rewrite (outer_extent_boxes _ _ a b Hle Hre).
    eexists. split; [reflexivity|]. right. exists (covering_box a b).
    split; [apply covering_box_proper; assumption | reflexivity].
Qed.
End ExtentResponses.

(** X19: a block that the constructor returned answers every request in
    extent mode. With the bundle of [get_sources_and_requests] and two
    upstream responses that each hold a projection and an extent that is
    [None] or a box with an inside, [process] returns a response with a
    projection and an extent that is [None] or a box, which may be a
    point or a segment: it neither raises nor falls through to [None]. *)
Theorem constructed_block_answers_extent_requests
    (left_block right_block : argument) (how : string) (suffixes : value)
    (node : t) (request kwargs left right : dict)
    (sources : (GeometryBlock.t * dict) * (GeometryBlock.t * dict)) :
  __init__ left_block right_block how suffixes = Ok node ->
  request !! "mode" = Some (VStr "extent") ->
  get_sources_and_requests node request = Ok (sources, kwargs) ->
  extent_response_ok left ->
  extent_response_ok right ->
  exists resp : dict,
    outcome (process left right kwargs) = Ok (Some resp)
    /\ extent_response_shape resp.
Proof.
  intros Hinit Hmode Hfan Hleft Hright.
  destruct (init_returns _ _ _ _ _ Hinit) as (l & r & _ & _ & Hhow & -> & _).
  unfold get_sources_and_requests in Hfan.
  rewrite (getitem_Some _ _ _ Hmode) in Hfan. cbn in Hfan.
  injection Hfan as _ <-.
  destruct (process_kwargs_lookup (VStr how) suffixes (VStr "extent"))
    as (Hkhow & _ & Hkmode & _).
  pose proof (extent_response_ok_shape _ Hleft) as Hleft_shape.
  pose proof (extent_response_ok_shape _ Hright) as Hright_shape.
  destruct Hleft as [(le & Hle & Hlok) [p Hp]].
  destruct Hright as [(re & Hre & Hrok) [q Hq]].
  unfold allow_how_joins in Hhow.
  rewrite !elem_of_cons, elem_of_nil in Hhow.
  destruct Hhow as [-> | [-> | [-> | [-> | []]]]].
  - exists left. split; [|exact Hleft_shape].
    unfold process.
    rewrite (getitem_Some _ _ _ Hkmode), (getitem_Some _ _ _ Hkhow),
      (getitem_Some _ _ _ Hp).
    run. compare_texts. run. reflexivity.
  - exists right. split; [|exact Hright_shape].
    unfold process.
    rewrite (getitem_Some _ _ _ Hkmode), (getitem_Some _ _ _ Hkhow),
      (getitem_Some _ _ _ Hp).
    run. compare_texts. run. reflexivity.
  - destruct (outer_extent_ok _ _ le re Hle Hre Hlok Hrok)
      as (values & Hvalues & Hok).
    exists {[ "extent" := values; "projection" := p ]}.
    split; [|apply extent_response_shape_built; exact Hok].
    rewrite (process_outer _ _ _ p Hkmode Hp Hkhow).
    unfold traced_bind. rewrite Hvalues. reflexivity.
  - destruct (inner_extent_ok _ _ le re Hle Hre Hlok Hrok)
      as (values & Hvalues & Hok).
    exists {[ "extent" := values; "projection" := p ]}.
    split; [|apply extent_response_shape_built; exact Hok].
    rewrite (process_inner _ _ _ p Hkmode Hp Hkhow).
    unfold traced_bind. rewrite Hvalues. reflexivity.
Qed.

(** A block with the join kind [outer] over a response without extent and
    a response with a box. *)
Lemma constructed_block_answers_extent_sample :
  exists resp : dict,
    outcome (process (sample.no_extent_response "EPSG:28992")
               sample.wgs_right (sample.kwargs "outer" "extent"))
    = Ok (Some resp)
    /\ extent_response_shape resp.
Proof.
  apply (constructed_block_answers_extent_requests
           (Block sample.left_block) (Block sample.right_block)
           "outer" default_suffixes
           (Build sample.left_block sample.right_block "outer"
              default_suffixes)
           {[ "mode" := VStr "extent" ]} (sample.kwargs "outer" "extent")
           (sample.no_extent_response "EPSG:28992") sample.wgs_right
           ((sample.left_block, {[ "mode" := VStr "extent" ]}),
            (sample.right_block, {[ "mode" := VStr "extent" ]}))).
  - reflexivity.
  - reflexivity.
  - reflexivity.
  - split.
    + exists VNone. split; [reflexivity | left; reflexivity].
    + eexists. reflexivity.
  - split.
    + eexists. split; [reflexivity|]. right.
      exists (shapely.Rect 5 5 15 15).
      split; [split; reflexivity | reflexivity].
    + eexists. reflexivity.
Defined.
